(** * The sleeping teaching assistant (TA_Sim.c)

    One TA thread, [num_students] student threads and the driver [main]
    share three counters, a mutex and a counting semaphore.  The program is
    embedded as an interleaving transition system: every thread has a program
    counter, and [thread_step t s] executes the next statement of thread [t]
    in state [s], or returns [None] when the thread is blocked (on the mutex,
    on the semaphore, on a join) or has exited.

    Granularity: one step is one statement that touches the mutex, the
    semaphore or a shared counter, together with the [printf] that directly
    follows it.  [sleep] and [rand] only stretch the time between two
    statements of one thread; the model is untimed, so a sleep is a step
    without effect and the printed programming time is left out.  Both
    listings of TA_Sim.c agree up to those delays.

    [pthread_create] for a student can fail; [main] then prints an error and
    carries on, and the slot of that student never holds a thread.  Whether a
    call fails is not decided by the program, so a run chooses it, like it
    chooses the interleaving: [thread_step TMain s] is the step of [main] in
    which a call succeeds, [thread_step TCreateFails s] the step in which it
    fails.

    [int] values are integers with the 32-bit wrap-around written out. *)

From Stdlib Require Import ZArith Lia List Bool.
From stdpp Require Import base tactics option list.

Local Open Scope Z_scope.

(** ** Machine integers *)

Definition INT_MAX : Z := 2147483647.

Definition wrap_int (z : Z) : Z := (z + 2147483648) mod 4294967296 - 2147483648.

Definition int_incr (x : Z) : Z := wrap_int (x + 1).
Definition int_decr (x : Z) : Z := wrap_int (x - 1).

(** [#define HELP_REQUESTS_PER_STUDENT 3] *)
Definition HELP_REQUESTS_PER_STUDENT : Z := 3.

(** ** Threads and program counters *)

(** Who makes a step: a thread, or [main] at a [pthread_create] for a
    student that fails.  Under [TMain] every call succeeds. *)
Inductive tid : Type :=
| TMain
| TTa
| TStudent (k : nat)
| TCreateFails.

(** [main], from the first creation loop on. *)
Inductive main_pc : Type :=
| MCreate (i : Z)      (* for (i = 0; i < num_students; i++) pthread_create *)
| MJoin (i : Z)        (* for (i = 0; i < num_students; i++) pthread_join *)
| MLock                (* pthread_mutex_lock *)
| MSetDone             (* all_done = 1 *)
| MUnlock              (* pthread_mutex_unlock *)
| MPost                (* sem_post: the final wake-up *)
| MJoinTa              (* pthread_join(ta_handle) *)
| MCleanup             (* destroy, free, return 0 *)
| MExited (status : Z).

(** [ta_thread]. *)
Inductive ta_pc : Type :=
| TaTop                (* printf sleeping *)
| TaSemWait            (* sem_wait *)
| TaLock               (* pthread_mutex_lock *)
| TaCheckExit          (* if (all_done && waiting_students == 0) *)
| TaGoHome             (* pthread_mutex_unlock on the exit branch *)
| TaBreak              (* printf going home; break; pthread_exit *)
| TaCheckWaiting       (* if (waiting_students > 0) *)
| TaHelp               (* waiting_students--; printf *)
| TaHelpUnlock         (* pthread_mutex_unlock *)
| TaHelpSleep          (* sleep(1) *)
| TaIdle               (* printf no students; pthread_mutex_unlock *)
| TaIdleSleep          (* sleep(1) *)
| TaExited.

(** [student_thread]; [i] is the loop counter of the request loop. *)
Inductive student_pc : Type :=
| StNotStarted         (* no thread: pthread_create not yet called, or failed *)
| StFor (i : Z)        (* i < HELP_REQUESTS_PER_STUDENT; printf; sleep *)
| StLock (i : Z)       (* pthread_mutex_lock *)
| StTest (i : Z)       (* if (waiting_students < num_chairs) *)
| StSit (i : Z)        (* waiting_students++; printf *)
| StSitUnlock (i : Z)  (* pthread_mutex_unlock *)
| StPost (i : Z)       (* sem_post *)
| StSitSleep (i : Z)   (* sleep(1); i++ *)
| StFull (i : Z)       (* printf hallway full; pthread_mutex_unlock *)
| StFullSleep (i : Z)  (* sleep(1); i++ *)
| StFinLock            (* pthread_mutex_lock *)
| StFinCount           (* students_finished++; printf *)
| StFinTest            (* if (students_finished == num_students) *)
| StFinSet             (* all_done = 1 *)
| StFinUnlock          (* pthread_mutex_unlock *)
| StExit               (* pthread_exit *)
| StExited.

#[global] Instance tid_eq_dec : EqDecision tid.
Proof. solve_decision. Defined.

#[global] Instance main_pc_eq_dec : EqDecision main_pc.
Proof. solve_decision. Defined.

#[global] Instance ta_pc_eq_dec : EqDecision ta_pc.
Proof. solve_decision. Defined.

#[global] Instance student_pc_eq_dec : EqDecision student_pc.
Proof. solve_decision. Defined.

(** ** Narration: the lines written to standard output *)

Inductive line : Type :=
| PromptStudents
| PromptChairs
| InvalidInput
| AllocError
| TaCreateError
| StudentCreateError (id : Z)
| TaSleeping
| TaGoingHome
| TaHelping (still_waiting : Z)
| TaNoStudents
| StProgramming (id : Z)
| StSitting (id waiting : Z)
| StHallwayFull (id : Z)
| StDoneForDay (id finished : Z).

(** ** Shared state

    The globals of TA_Sim.c keep their names.  [mutex] records the owner,
    [students_sem] the value of the semaphore, [student_threads] has one slot
    per entry of [student_handles], [stdout] lists the printed lines, the most
    recent first. *)

Record state : Type := mkState {
  num_students : Z;
  num_chairs : Z;
  waiting_students : Z;
  students_finished : Z;
  all_done : Z;
  mutex : option tid;
  students_sem : Z;
  main_thread : main_pc;
  ta : ta_pc;
  student_threads : list student_pc;
  stdout : list line
}.

Definition set_waiting_students (v : Z) (s : state) : state :=
  mkState (num_students s) (num_chairs s) v (students_finished s) (all_done s)
          (mutex s) (students_sem s) (main_thread s) (ta s) (student_threads s)
          (stdout s).

Definition set_students_finished (v : Z) (s : state) : state :=
  mkState (num_students s) (num_chairs s) (waiting_students s) v (all_done s)
          (mutex s) (students_sem s) (main_thread s) (ta s) (student_threads s)
          (stdout s).

Definition set_all_done (v : Z) (s : state) : state :=
  mkState (num_students s) (num_chairs s) (waiting_students s)
          (students_finished s) v (mutex s) (students_sem s) (main_thread s)
          (ta s) (student_threads s) (stdout s).

Definition set_mutex (v : option tid) (s : state) : state :=
  mkState (num_students s) (num_chairs s) (waiting_students s)
          (students_finished s) (all_done s) v (students_sem s) (main_thread s)
          (ta s) (student_threads s) (stdout s).

Definition set_students_sem (v : Z) (s : state) : state :=
  mkState (num_students s) (num_chairs s) (waiting_students s)
          (students_finished s) (all_done s) (mutex s) v (main_thread s)
          (ta s) (student_threads s) (stdout s).

Definition set_main (v : main_pc) (s : state) : state :=
  mkState (num_students s) (num_chairs s) (waiting_students s)
          (students_finished s) (all_done s) (mutex s) (students_sem s) v
          (ta s) (student_threads s) (stdout s).

Definition set_ta (v : ta_pc) (s : state) : state :=
  mkState (num_students s) (num_chairs s) (waiting_students s)
          (students_finished s) (all_done s) (mutex s) (students_sem s)
          (main_thread s) v (student_threads s) (stdout s).

Definition set_student (k : nat) (v : student_pc) (s : state) : state :=
  mkState (num_students s) (num_chairs s) (waiting_students s)
          (students_finished s) (all_done s) (mutex s) (students_sem s)
          (main_thread s) (ta s) (<[k := v]> (student_threads s)) (stdout s).

Definition printf (l : line) (s : state) : state :=
  mkState (num_students s) (num_chairs s) (waiting_students s)
          (students_finished s) (all_done s) (mutex s) (students_sem s)
          (main_thread s) (ta s) (student_threads s) (l :: stdout s).

(** ** Synchronisation primitives *)

(** [pthread_mutex_lock]: succeeds when the mutex is free, blocks otherwise. *)
Definition pthread_mutex_lock (t : tid) (s : state) : option state :=
  match mutex s with
  | None => Some (set_mutex (Some t) s)
  | Some _ => None
  end.

Definition pthread_mutex_unlock (s : state) : state := set_mutex None s.

(** [sem_wait]: blocks while the value is not positive, then decrements. *)
Definition sem_wait (s : state) : option state :=
  if 0 <? students_sem s
  then Some (set_students_sem (students_sem s - 1) s)
  else None.

Definition sem_post (s : state) : state :=
  set_students_sem (students_sem s + 1) s.

(** ** The driver *)

(** Identifier handed to the thread in slot [k]: [student_ids[i] = i + 1]
    is written before the thread is created and never changes. *)
Definition student_id (k : nat) : Z := int_incr (Z.of_nat k).

(** The shutdown handshake mutates the shared state by [all_done = 1]. *)
Definition force_all_done (s : state) : state := set_all_done 1 s.

(** [pthread_join] on a slot returns once its thread has exited.  On a
    slot whose [pthread_create] failed the handle was never written and names
    no thread: the call returns at once with an error, which [main]
    ignores. *)
Definition join_returns (pc : student_pc) : bool :=
  match pc with
  | StExited | StNotStarted => true
  | _ => false
  end.

(** [created_ok] is the outcome of the [pthread_create] that [main] is
    about to call, if any: on success the thread starts in its slot, on
    failure [main] prints the error line with [i + 1] and goes on with the
    next slot. *)
Definition step_main (created_ok : bool) (s : state) : option state :=
  match main_thread s with
  | MCreate i =>
      if i <? num_students s
      then if created_ok
           then Some (set_main (MCreate (int_incr i))
                        (set_student (Z.to_nat i) (StFor 0) s))
           else Some (set_main (MCreate (int_incr i))
                        (printf (StudentCreateError (int_incr i)) s))
      else Some (set_main (MJoin 0) s)
  | MJoin i =>
      if i <? num_students s
      then match student_threads s !! Z.to_nat i with
           | Some pc =>
               if join_returns pc
               then Some (set_main (MJoin (int_incr i)) s)
               else None
           | None => None
           end
      else Some (set_main MLock s)
  | MLock =>
      match pthread_mutex_lock TMain s with
      | Some s' => Some (set_main MSetDone s')
      | None => None
      end
  | MSetDone => Some (set_main MUnlock (force_all_done s))
  | MUnlock => Some (set_main MPost (pthread_mutex_unlock s))
  | MPost => Some (set_main MJoinTa (sem_post s))
  | MJoinTa =>
      match ta s with
      | TaExited => Some (set_main MCleanup s)
      | _ => None
      end
  | MCleanup => Some (set_main (MExited 0) s)
  | MExited _ => None
  end.

(** ** The TA *)

Definition step_ta (s : state) : option state :=
  match ta s with
  | TaTop => Some (set_ta TaSemWait (printf TaSleeping s))
  | TaSemWait =>
      match sem_wait s with
      | Some s' => Some (set_ta TaLock s')
      | None => None
      end
  | TaLock =>
      match pthread_mutex_lock TTa s with
      | Some s' => Some (set_ta TaCheckExit s')
      | None => None
      end
  | TaCheckExit =>
      if negb (all_done s =? 0) && (waiting_students s =? 0)
      then Some (set_ta TaGoHome s)
      else Some (set_ta TaCheckWaiting s)
  | TaGoHome => Some (set_ta TaBreak (pthread_mutex_unlock s))
  | TaBreak => Some (set_ta TaExited (printf TaGoingHome s))
  | TaCheckWaiting =>
      if 0 <? waiting_students s
      then Some (set_ta TaHelp s)
      else Some (set_ta TaIdle s)
  | TaHelp =>
      let w := int_decr (waiting_students s) in
      Some (set_ta TaHelpUnlock (printf (TaHelping w) (set_waiting_students w s)))
  | TaHelpUnlock => Some (set_ta TaHelpSleep (pthread_mutex_unlock s))
  | TaHelpSleep => Some (set_ta TaTop s)
  | TaIdle => Some (set_ta TaIdleSleep (pthread_mutex_unlock (printf TaNoStudents s)))
  | TaIdleSleep => Some (set_ta TaTop s)
  | TaExited => None
  end.

(** ** A student *)

Definition step_student (k : nat) (s : state) : option state :=
  match student_threads s !! k with
  | None => None
  | Some pc =>
      match pc with
      | StNotStarted => None
      | StFor i =>
          if i <? HELP_REQUESTS_PER_STUDENT
          then Some (set_student k (StLock i) (printf (StProgramming (student_id k)) s))
          else Some (set_student k StFinLock s)
      | StLock i =>
          match pthread_mutex_lock (TStudent k) s with
          | Some s' => Some (set_student k (StTest i) s')
          | None => None
          end
      | StTest i =>
          if waiting_students s <? num_chairs s
          then Some (set_student k (StSit i) s)
          else Some (set_student k (StFull i) s)
      | StSit i =>
          let w := int_incr (waiting_students s) in
          Some (set_student k (StSitUnlock i)
                  (printf (StSitting (student_id k) w) (set_waiting_students w s)))
      | StSitUnlock i => Some (set_student k (StPost i) (pthread_mutex_unlock s))
      | StPost i => Some (set_student k (StSitSleep i) (sem_post s))
      | StSitSleep i => Some (set_student k (StFor (int_incr i)) s)
      | StFull i =>
          Some (set_student k (StFullSleep i)
                  (pthread_mutex_unlock (printf (StHallwayFull (student_id k)) s)))
      | StFullSleep i => Some (set_student k (StFor (int_incr i)) s)
      | StFinLock =>
          match pthread_mutex_lock (TStudent k) s with
          | Some s' => Some (set_student k StFinCount s')
          | None => None
          end
      | StFinCount =>
          let f := int_incr (students_finished s) in
          Some (set_student k StFinTest
                  (printf (StDoneForDay (student_id k) f) (set_students_finished f s)))
      | StFinTest =>
          if students_finished s =? num_students s
          then Some (set_student k StFinSet s)
          else Some (set_student k StFinUnlock s)
      | StFinSet => Some (set_student k StFinUnlock (set_all_done 1 s))
      | StFinUnlock => Some (set_student k StExit (pthread_mutex_unlock s))
      | StExit => Some (set_student k StExited s)
      | StExited => None
      end
  end.

(** ** The interleaving semantics *)

(** [main] is about to call [pthread_create] for a student. *)
Definition at_create (s : state) : bool :=
  match main_thread s with
  | MCreate i => i <? num_students s
  | _ => false
  end.

Definition thread_step (t : tid) (s : state) : option state :=
  match t with
  | TMain => step_main true s
  | TTa => step_ta s
  | TStudent k => step_student k s
  | TCreateFails => if at_create s then step_main false s else None
  end.

(** A run lists the states it visits after the first. *)
Inductive steps : state -> list state -> state -> Prop :=
| steps_done s : steps s [] s
| steps_next s t s1 tr s2 :
    thread_step t s = Some s1 -> steps s1 tr s2 -> steps s (s1 :: tr) s2.

(** Running a schedule, a list of thread names; [None] when a scheduled
    thread cannot move. *)
Fixpoint run_schedule (sched : list tid) (s : state) : option state :=
  match sched with
  | [] => Some s
  | t :: sched' =>
      match thread_step t s with
      | Some s' => run_schedule sched' s'
      | None => None
      end
  end.

(** ** Start of [main] *)

Inductive outcome : Type :=
| Exit (status : Z) (out : list line)
| Started (s : state).

(** State in which the TA thread has just been created. *)
Definition initial (n_students n_chairs : Z) : state :=
  mkState n_students n_chairs 0 0 0 None 0 (MCreate 0) TaTop
          (replicate (Z.to_nat n_students) StNotStarted)
          [PromptChairs; PromptStudents].

(** [main] up to the creation of the TA thread.  [in_students] and
    [in_chairs] are the two values read by [scanf]; [malloc_ok] and
    [ta_created] say whether the allocations and the first
    [pthread_create] succeed. *)
Definition main_start (in_students in_chairs : Z) (malloc_ok ta_created : bool)
  : outcome :=
  if (in_students <=? 0) || (in_chairs <? 0)
  then Exit 1 [InvalidInput; PromptChairs; PromptStudents]
  else if negb malloc_ok
  then Exit 1 [AllocError; PromptChairs; PromptStudents]
  else if negb ta_created
  then Exit 1 [TaCreateError; PromptChairs; PromptStudents]
  else Started (initial in_students in_chairs).

Definition reachable (n_students n_chairs : Z) (s : state) : Prop :=
  exists tr, steps (initial n_students n_chairs) tr s.

(** ** A scheduler that always runs the first thread able to move

    Under this scheduler every [pthread_create] succeeds. *)

Definition all_threads (s : state) : list tid :=
  TMain :: TTa :: map TStudent (seq 0 (length (student_threads s))).

Fixpoint first_enabled (ts : list tid) (s : state) : option state :=
  match ts with
  | [] => None
  | t :: ts' =>
      match thread_step t s with
      | Some s' => Some s'
      | None => first_enabled ts' s
      end
  end.

Fixpoint run_to_end (fuel : nat) (s : state) : state :=
  match fuel with
  | O => s
  | S fuel' =>
      match first_enabled (all_threads s) s with
      | Some s' => run_to_end fuel' s'
      | None => s
      end
  end.

(** Everything has exited: [main] has returned 0, the TA has exited, and
    every slot holds an exited thread or none. *)
Definition finished (s : state) : Prop :=
  main_thread s = MExited 0 /\ ta s = TaExited /\
  forall k pc, student_threads s !! k = Some pc ->
    pc = StExited \/ pc = StNotStarted.

(** ** Counting over the student slots *)

Fixpoint sumZ (f : student_pc -> Z) (l : list student_pc) : Z :=
  match l with
  | [] => 0
  | x :: l' => f x + sumZ f l'
  end.

(** Who is inside a critical section. *)
Definition main_holds (pc : main_pc) : bool :=
  match pc with
  | MSetDone | MUnlock => true
  | _ => false
  end.

Definition ta_holds (pc : ta_pc) : bool :=
  match pc with
  | TaCheckExit | TaGoHome | TaCheckWaiting | TaHelp | TaHelpUnlock | TaIdle => true
  | _ => false
  end.

Definition student_holds (pc : student_pc) : bool :=
  match pc with
  | StTest _ | StSit _ | StSitUnlock _ | StFull _
  | StFinCount | StFinTest | StFinSet | StFinUnlock => true
  | _ => false
  end.

(** A student that has executed [students_finished++]. *)
Definition fin_counted (pc : student_pc) : Z :=
  match pc with
  | StFinTest | StFinSet | StFinUnlock | StExit | StExited => 1
  | _ => 0
  end.

(** A student that has taken a chair and not yet posted the semaphore. *)
Definition post_pending (pc : student_pc) : Z :=
  match pc with
  | StSitUnlock _ | StPost _ => 1
  | _ => 0
  end.

(** The TA has consumed a semaphore event and not yet served for it. *)
Definition ta_token (pc : ta_pc) : Z :=
  match pc with
  | TaLock | TaCheckExit | TaCheckWaiting | TaHelp
  | TaGoHome | TaBreak | TaExited => 1
  | _ => 0
  end.

(** [main] has posted the final wake-up. *)
Definition main_posted (pc : main_pc) : Z :=
  match pc with
  | MJoinTa | MCleanup | MExited _ => 1
  | _ => 0
  end.

(** [main] has executed [all_done = 1]. *)
Definition main_forced (pc : main_pc) : bool :=
  match pc with
  | MUnlock | MPost | MJoinTa | MCleanup | MExited _ => true
  | _ => false
  end.

(** A thread was started in the slot. *)
Definition started (pc : student_pc) : Z :=
  match pc with
  | StNotStarted => 0
  | _ => 1
  end.

(** Number of slots for which [pthread_create] has been called. *)
Definition created (s : state) : Z :=
  match main_thread s with
  | MCreate i => i
  | _ => num_students s
  end.

(** Lines of the narration with a given property. *)
Fixpoint count_lines (p : line -> bool) (out : list line) : Z :=
  match out with
  | [] => 0
  | l :: out' => (if p l then 1 else 0) + count_lines p out'
  end.

Definition is_create_error (l : line) : bool :=
  match l with StudentCreateError _ => true | _ => false end.

(** Calls of [pthread_create] for a student that have failed so far: each
    one has printed its error line. *)
Definition failed_creates (s : state) : Z :=
  count_lines is_create_error (stdout s).

(** Number of slots already joined by [main]. *)
Definition joined (s : state) : Z :=
  match main_thread s with
  | MCreate _ => 0
  | MJoin i => i
  | _ => num_students s
  end.

Definition ta_left_loop (pc : ta_pc) : bool :=
  match pc with
  | TaGoHome | TaBreak | TaExited => true
  | _ => false
  end.

(** What a student's program counter says about its loop counter and about
    the shared counters it has just tested. *)
Definition student_ok (waiting chairs done total : Z) (pc : student_pc) : Prop :=
  match pc with
  | StFor i => 0 <= i <= HELP_REQUESTS_PER_STUDENT
  | StLock i | StTest i | StSitUnlock i | StPost i | StSitSleep i
  | StFull i | StFullSleep i => 0 <= i < HELP_REQUESTS_PER_STUDENT
  | StSit i => 0 <= i < HELP_REQUESTS_PER_STUDENT /\ waiting < chairs
  | StFinSet => done = total
  | _ => True
  end.

Definition ta_ok (s : state) : Prop :=
  match ta s with
  | TaCheckWaiting => all_done s = 0 \/ waiting_students s <> 0
  | TaHelp => 0 < waiting_students s
  | TaGoHome | TaBreak | TaExited => all_done s = 1 /\ waiting_students s = 0
  | TaIdle | TaIdleSleep => False
  | _ => True
  end.

Definition main_ok (s : state) : Prop :=
  match main_thread s with
  | MCreate i | MJoin i => 0 <= i <= num_students s
  | MCleanup => ta s = TaExited
  | MExited st => st = 0 /\ ta s = TaExited
  | _ => True
  end.

(** The invariant of the protocol, for a run started with [n_students]
    students and [n_chairs] chairs. *)
Record Inv (n_students n_chairs : Z) (s : state) : Prop := mkInv {
  inv_students : num_students s = n_students;
  inv_chairs : num_chairs s = n_chairs;
  inv_slots : length (student_threads s) = Z.to_nat n_students;
  inv_waiting : 0 <= waiting_students s <= n_chairs;
  inv_sem : 0 <= students_sem s;
  inv_flag : all_done s = 0 \/ all_done s = 1;
  inv_finished : students_finished s = sumZ fin_counted (student_threads s);
  inv_all_done : all_done s = 1 -> main_forced (main_thread s) = false ->
    students_finished s = n_students;
  inv_forced : main_forced (main_thread s) = true -> all_done s = 1;
  inv_tokens :
    waiting_students s + main_posted (main_thread s)
    = students_sem s + ta_token (ta s) + sumZ post_pending (student_threads s);
  inv_main : main_ok s;
  inv_ta : ta_ok s;
  inv_student : forall k pc, student_threads s !! k = Some pc ->
    student_ok (waiting_students s) (num_chairs s) (students_finished s)
               (num_students s) pc;
  inv_created : forall k pc, student_threads s !! k = Some pc ->
    created s <= Z.of_nat k -> pc = StNotStarted;
  inv_joined : forall k pc, student_threads s !! k = Some pc ->
    Z.of_nat k < joined s -> join_returns pc = true;
  inv_failed : failed_creates s + sumZ started (student_threads s) = created s;
  inv_own_main : main_holds (main_thread s) = true <-> mutex s = Some TMain;
  inv_own_ta : ta_holds (ta s) = true <-> mutex s = Some TTa;
  inv_own_student : forall k pc, student_threads s !! k = Some pc ->
    (student_holds pc = true <-> mutex s = Some (TStudent k));
  inv_own_slot : forall k, mutex s = Some (TStudent k) ->
    (k < length (student_threads s))%nat;
  inv_own_none : mutex s <> Some TCreateFails
}.

(** ** A termination measure

    Every step of every thread decreases [measure]: a student by its
    remaining statements, with fifteen units per request cycle, and a
    semaphore event weighs eight units, more than one turn of the TA's loop
    costs, so that posting is paid for by the poster. *)

Definition student_measure (pc : student_pc) : Z :=
  match pc with
  | StNotStarted => HELP_REQUESTS_PER_STUDENT * 15 + 8
  | StFor i => (HELP_REQUESTS_PER_STUDENT - i) * 15 + 7
  | StLock i => (HELP_REQUESTS_PER_STUDENT - i) * 15 + 6
  | StTest i => (HELP_REQUESTS_PER_STUDENT - i) * 15 + 5
  | StSit i => (HELP_REQUESTS_PER_STUDENT - i) * 15 + 4
  | StSitUnlock i => (HELP_REQUESTS_PER_STUDENT - i) * 15 + 3
  | StPost i => (HELP_REQUESTS_PER_STUDENT - i) * 15 + 2
  | StSitSleep i => (HELP_REQUESTS_PER_STUDENT - i) * 15 - 7
  | StFull i => (HELP_REQUESTS_PER_STUDENT - i) * 15 + 4
  | StFullSleep i => (HELP_REQUESTS_PER_STUDENT - i) * 15 + 3
  | StFinLock => 6
  | StFinCount => 5
  | StFinTest => 4
  | StFinSet => 3
  | StFinUnlock => 2
  | StExit => 1
  | StExited => 0
  end.

Definition ta_measure (pc : ta_pc) : Z :=
  match pc with
  | TaTop => 1
  | TaSemWait => 0
  | TaLock => 7
  | TaCheckExit => 6
  | TaCheckWaiting => 5
  | TaHelp => 4
  | TaHelpUnlock => 3
  | TaHelpSleep => 2
  | TaIdle => 3
  | TaIdleSleep => 2
  | TaGoHome => 2
  | TaBreak => 1
  | TaExited => 0
  end.

Definition main_measure (total : Z) (pc : main_pc) : Z :=
  match pc with
  | MCreate i => 2 * total - i + 16
  | MJoin i => total - i + 15
  | MLock => 14
  | MSetDone => 13
  | MUnlock => 12
  | MPost => 11
  | MJoinTa => 2
  | MCleanup => 1
  | MExited _ => 0
  end.

Definition measure (s : state) : Z :=
  main_measure (num_students s) (main_thread s) + ta_measure (ta s)
  + 8 * students_sem s + sumZ student_measure (student_threads s).

(** No thread can move. *)
Definition stuck (s : state) : Prop := forall t, thread_step t s = None.

(** ** Counting events along a run *)

Fixpoint count_steps (ev : state -> state -> bool) (s : state) (tr : list state) : Z :=
  match tr with
  | [] => 0
  | s1 :: tr' => (if ev s s1 then 1 else 0) + count_steps ev s1 tr'
  end.

(** A student took a chair: [waiting_students++]. *)
Definition admission (s s1 : state) : bool :=
  waiting_students s <? waiting_students s1.

(** The TA released a chair: [waiting_students--]. *)
Definition release (s s1 : state) : bool :=
  waiting_students s1 <? waiting_students s.

(** [all_done] went from false to true. *)
Definition flag_rises (s s1 : state) : bool :=
  (all_done s =? 0) && negb (all_done s1 =? 0).

(** Student [k] evaluated [waiting_students < num_chairs]. *)
Definition attempt_by (k : nat) (s s1 : state) : bool :=
  match student_threads s !! k, student_threads s1 !! k with
  | Some (StTest _), Some (StSit _ | StFull _) => true
  | _, _ => false
  end.

(** Admission attempts a student has completed, read off its program
    counter. *)
Definition attempts_made (pc : student_pc) : Z :=
  match pc with
  | StNotStarted => 0
  | StFor i | StLock i | StTest i => i
  | StSit i | StSitUnlock i | StPost i | StSitSleep i
  | StFull i | StFullSleep i => i + 1
  | _ => HELP_REQUESTS_PER_STUDENT
  end.

Definition attempts_of (k : nat) (s : state) : Z :=
  match student_threads s !! k with
  | Some pc => attempts_made pc
  | None => 0
  end.

(** ** Operations named by the specification, as compositions of steps *)

(** [Granted]: the student took a chair; [Rejected]: the hallway was full. *)
Inductive admission_result : Type := Granted | Rejected.

(** The admission protocol inside [student_thread], run by student [k]
    without interruption from [pthread_mutex_lock] to
    [pthread_mutex_unlock]. *)
Definition try_occupy_seat (k : nat) (s : state) : option (admission_result * state) :=
  match thread_step (TStudent k) s with
  | None => None
  | Some s1 =>
      match thread_step (TStudent k) s1 with
      | None => None
      | Some s2 =>
          match student_threads s2 !! k with
          | Some (StSit _) =>
              match thread_step (TStudent k) s2 with
              | None => None
              | Some s3 =>
                  match thread_step (TStudent k) s3 with
                  | None => None
                  | Some s4 => Some (Granted, s4)
                  end
              end
          | Some (StFull _) =>
              match thread_step (TStudent k) s2 with
              | None => None
              | Some s3 => Some (Rejected, s3)
              end
          | _ => None
          end
      end
  end.

(** The statements of [student_thread] that make up the admission
    protocol. *)
Definition in_admission (pc : student_pc) : bool :=
  match pc with
  | StLock _ | StTest _ | StSit _ | StSitUnlock _ | StFull _ => true
  | _ => false
  end.

(** The critical section of the shutdown handshake in [main]:
    lock, [all_done = 1], unlock. *)
Definition force_terminal (s : state) : option state :=
  match pthread_mutex_lock TMain s with
  | Some s1 => Some (pthread_mutex_unlock (force_all_done s1))
  | None => None
  end.

(** The TA is past its exit test, on the serving side of the loop. *)
Definition ta_serving (pc : ta_pc) : bool :=
  match pc with
  | TaCheckWaiting | TaHelp | TaHelpUnlock | TaHelpSleep | TaIdle | TaIdleSleep => true
  | _ => false
  end.

(** Every admission attempt of every run is granted. *)
Definition never_rejected (n_students n_chairs : Z) : Prop :=
  forall tr s k i,
    steps (initial n_students n_chairs) tr s ->
    student_threads s !! k = Some (StTest i) ->
    waiting_students s < num_chairs s.



(** Chairs a student can have taken so far, read off its program counter:
    one per completed admission attempt. *)
Definition seats_bound (pc : student_pc) : Z :=
  match pc with
  | StSit i => i
  | _ => attempts_made pc
  end.

(** ** Concrete runs *)

(** The states visited by a schedule, and the state it ends in. *)
Fixpoint schedule_trace (sched : list tid) (s : state) : list state :=
  match sched with
  | [] => []
  | t :: sched' =>
      match thread_step t s with
      | Some s1 => s1 :: schedule_trace sched' s1
      | None => []
      end
  end.

Definition after (sched : list tid) (s : state) : state :=
  match run_schedule sched s with
  | Some s' => s'
  | None => s
  end.

(** One student, one chair: [main] creates the student, which takes the
    chair in its first cycle and asks again before the TA has run. *)
Definition eager_student : list tid :=
  TMain :: replicate 9 (TStudent 0).

(** Two students, one chair: the first student is inside its critical
    section, about to release the mutex. *)
Definition seated_student : list tid :=
  [TMain; TMain; TStudent 0; TStudent 0; TStudent 0; TStudent 0].

(** One student, one chair: the student has reached its first lock
    acquisition and the mutex is free. *)
Definition student_at_lock : list tid := [TMain; TStudent 0].

(** One student, no chair: the student is about to evaluate the admission
    test of its first cycle. *)
Definition student_at_test : list tid := [TMain; TStudent 0; TStudent 0].

(** One student, one chair: the student runs to its end before the TA has
    made a step, [main] shuts down, and only then the TA runs. *)
Definition late_ta : list tid :=
  TMain :: replicate 24 (TStudent 0) ++ replicate 7 TMain ++ replicate 14 TTa
  ++ [TMain; TMain].

(** Two students, one chair: the first [pthread_create] succeeds, the
    second fails. *)
Definition second_create_fails : list tid := [TMain; TCreateFails].

(** ** Critical sections *)

(** Thread [t] is between a [pthread_mutex_lock] and the matching
    [pthread_mutex_unlock]. *)
Definition in_critical (t : tid) (s : state) : bool :=
  match t with
  | TMain => main_holds (main_thread s)
  | TTa => ta_holds (ta s)
  | TStudent k =>
      match student_threads s !! k with
      | Some pc => student_holds pc
      | None => false
      end
  | TCreateFails => false
  end.

(** A student between [students_finished++] and the [all_done = 1] it may
    lead to. *)
Definition at_final_test (pc : student_pc) : Z :=
  match pc with
  | StFinTest | StFinSet => 1
  | _ => 0
  end.

(** As long as [all_done] is clear while every student is counted, the
    student that counted last is still on its way to set it. *)
Definition last_student_pending (s : state) : Prop :=
  all_done s = 0 -> students_finished s = num_students s ->
  1 <= sumZ at_final_test (student_threads s).

(** The loop counter [i] of a student inside its request loop. *)
Definition loop_counter (pc : student_pc) : option Z :=
  match pc with
  | StFor i | StLock i | StTest i | StSit i | StSitUnlock i | StPost i
  | StSitSleep i | StFull i | StFullSleep i => Some i
  | _ => None
  end.

(** ** Reading the narration *)

Definition is_programming (l : line) : bool :=
  match l with StProgramming _ => true | _ => false end.
Definition is_sitting (l : line) : bool :=
  match l with StSitting _ _ => true | _ => false end.
Definition is_full (l : line) : bool :=
  match l with StHallwayFull _ => true | _ => false end.
Definition is_done (l : line) : bool :=
  match l with StDoneForDay _ _ => true | _ => false end.
Definition is_sleeping (l : line) : bool :=
  match l with TaSleeping => true | _ => false end.
Definition is_helping (l : line) : bool :=
  match l with TaHelping _ => true | _ => false end.
Definition is_going_home (l : line) : bool :=
  match l with TaGoingHome => true | _ => false end.

(** The values a line of a run can carry, for [total] students and
    [chairs] chairs; the error lines of the start-up and the idle line of
    the TA are not lines of a run. *)
Definition line_ok (total chairs : Z) (l : line) : Prop :=
  match l with
  | StProgramming id | StHallwayFull id | StudentCreateError id =>
      1 <= id <= total
  | StSitting id w => 1 <= id <= total /\ 1 <= w <= chairs
  | StDoneForDay id f => 1 <= id <= total /\ 1 <= f <= total
  | TaHelping w => 0 <= w < chairs
  | TaNoStudents | InvalidInput | AllocError | TaCreateError => False
  | PromptStudents | PromptChairs | TaSleeping | TaGoingHome => True
  end.

(** The finished counts printed by the students, the most recent first. *)
Fixpoint done_counts (out : list line) : list Z :=
  match out with
  | [] => []
  | StDoneForDay _ f :: out' => f :: done_counts out'
  | _ :: out' => done_counts out'
  end.

(** [n; n-1; ...; 1] *)
Fixpoint count_down (n : nat) : list Z :=
  match n with
  | O => []
  | S m => Z.of_nat (S m) :: count_down m
  end.

(** Programming lines a student has printed, read off its program
    counter. *)
Definition programmed (pc : student_pc) : Z :=
  match pc with
  | StNotStarted => 0
  | StFor i => i
  | StLock i | StTest i | StSit i | StSitUnlock i | StPost i | StSitSleep i
  | StFull i | StFullSleep i => i + 1
  | _ => HELP_REQUESTS_PER_STUDENT
  end.

(** Sitting and hallway-full lines a student has printed. *)
Definition answered (pc : student_pc) : Z :=
  match pc with
  | StNotStarted => 0
  | StFor i | StLock i | StTest i | StSit i | StFull i => i
  | StSitUnlock i | StPost i | StSitSleep i | StFullSleep i => i + 1
  | _ => HELP_REQUESTS_PER_STUDENT
  end.

(** Sleeping lines of the TA not yet followed by a helping line. *)
Definition ta_announced (pc : ta_pc) : Z :=
  match pc with
  | TaTop | TaHelpUnlock | TaHelpSleep | TaIdle | TaIdleSleep => 0
  | _ => 1
  end.

(** The TA has printed its last line. *)
Definition ta_gone (pc : ta_pc) : Z :=
  match pc with
  | TaExited => 1
  | _ => 0
  end.

(** The narration agrees with the shared counters and with the program
    counters of the threads. *)
Definition narration_agrees (s : state) : Prop :=
  count_lines is_sitting (stdout s)
  = count_lines is_helping (stdout s) + waiting_students s /\
  count_lines is_done (stdout s) = students_finished s /\
  count_lines is_sleeping (stdout s)
  = count_lines is_helping (stdout s) + ta_announced (ta s) /\
  count_lines is_programming (stdout s)
  = sumZ programmed (student_threads s) /\
  count_lines is_sitting (stdout s) + count_lines is_full (stdout s)
  = sumZ answered (student_threads s) /\
  count_lines is_going_home (stdout s) = ta_gone (ta s).

(** No student is in the rejection branch unless every chair is taken. *)
Definition full_when_rejected (s : state) : Prop :=
  forall k i, student_threads s !! k = Some (StFull i) ->
    waiting_students s = num_chairs s.

(** A [sem_post] was executed. *)
Definition post_event (s s1 : state) : bool :=
  students_sem s <? students_sem s1.

(** The TA came back from [sem_wait]. *)
Definition wake_event (s s1 : state) : bool :=
  students_sem s1 <? students_sem s.

(** The TA came back from [sem_wait] after the final post of [main]. *)
Definition late_wake (s s1 : state) : bool :=
  wake_event s s1 && (main_posted (main_thread s) =? 1).

(** "After the final post of [main] the TA exits within one wake-up." *)
Definition exits_within_one_wake (n_students n_chairs : Z) : Prop :=
  forall tr s,
    steps (initial n_students n_chairs) tr s ->
    count_steps late_wake (initial n_students n_chairs) tr <= 1.

(** Wake-ups the TA can still get after the final post of [main]: the
    value of the semaphore once the post is made, and before that no more
    than one per chair and the post itself. *)
Definition wakes_left (s : state) : Z :=
  if main_posted (main_thread s) =? 1
  then students_sem s
  else num_chairs s + 1.

(** The states visited by [run_to_end]. *)
Fixpoint run_to_end_trace (fuel : nat) (s : state) : list state :=
  match fuel with
  | O => []
  | S fuel' =>
      match first_enabled (all_threads s) s with
      | Some s' => s' :: run_to_end_trace fuel' s'
      | None => []
      end
  end.

(** The complete run that follows [second_create_fails]: the states it
    visits and the state it ends in. *)
Definition failed_create_trace : list state :=
  schedule_trace second_create_fails (initial 2 1)
  ++ run_to_end_trace 200 (after second_create_fails (initial 2 1)).

Definition after_failed_create : state :=
  run_to_end 200 (after second_create_fails (initial 2 1)).

(** Every error line about a student thread names a slot that [main] has
    passed and that holds no thread. *)
Definition error_lines_ok (s : state) : Prop :=
  forall id, In (StudentCreateError id) (stdout s) ->
    1 <= id <= created s /\
    student_threads s !! Z.to_nat (id - 1) = Some StNotStarted.

(** ** Lemmas on sums and on machine integers *)

Lemma wrap_int_id z : -2147483648 <= z <= INT_MAX -> wrap_int z = z.
Proof.
  unfold wrap_int, INT_MAX. intros Hz.
  rewrite Z.mod_small by lia. lia.
Qed.

Lemma sumZ_insert f l k x y :
  l !! k = Some x -> sumZ f (<[k := y]> l) = sumZ f l - f x + f y.
Proof.
  revert k. induction l as [|a l IH]; intros [|k] Hk; simpl in *; try discriminate.
  - inversion Hk; subst. lia.
  - rewrite (IH k Hk). lia.
Qed.

Lemma sumZ_replicate f n x : sumZ f (replicate n x) = Z.of_nat n * f x.
Proof. induction n as [|n IH]; simpl replicate; simpl sumZ; [lia|]. rewrite IH. lia. Qed.

Lemma sumZ_bounds f l :
  (forall x, 0 <= f x <= 1) -> 0 <= sumZ f l <= Z.of_nat (length l).
Proof.
  intros Hf. induction l as [|a l IH]; simpl sumZ; simpl length; [lia|].
  specialize (Hf a). lia.
Qed.

Lemma sumZ_lookup f l k x :
  (forall x, 0 <= f x <= 1) -> l !! k = Some x ->
  f x <= sumZ f l <= Z.of_nat (length l) - 1 + f x.
Proof.
  intros Hf. revert k. induction l as [|a l IH]; intros [|k] Hk; simpl in Hk; try discriminate.
  - inversion Hk; subst. pose proof (sumZ_bounds f l Hf). simpl sumZ. simpl length. lia.
  - specialize (IH k Hk). specialize (Hf a). simpl sumZ. simpl length. lia.
Qed.

Lemma fin_counted_01 x : 0 <= fin_counted x <= 1.
Proof. destruct x; simpl; lia. Qed.

Lemma post_pending_01 x : 0 <= post_pending x <= 1.
Proof. destruct x; simpl; lia. Qed.

(** ** Proof automation for the invariant *)

Ltac unf :=
  unfold main_ok, ta_ok, created, joined, failed_creates in *; simpl in *;
  unfold HELP_REQUESTS_PER_STUDENT in *.

Ltac atom :=
  first [ assumption | reflexivity | discriminate | lia | congruence
        | progress simplify_eq; lia ].

(** Saturate the context with the consequences of the implications whose
    premise can be established. *)
Ltac forward :=
  repeat match goal with
         | H : _ <-> _ |- _ => destruct H
         | H : _ /\ _ |- _ => destruct H
         | H : ?A -> ?B |- _ =>
             let HA := fresh in
             assert (HA : A) by atom; specialize (H HA); clear HA
         end.

Ltac own_solve :=
  intros;
  first [ atom
        | forward;
          first [ atom
                | exfalso; atom
                | split; intros; forward; first [ atom | split; atom ] ] ].

Ltac slot_facts Hst Hcr Hjo Hos Hk :=
  pose proof (Hst _ _ Hk); pose proof (Hcr _ _ Hk); pose proof (Hjo _ _ Hk);
  pose proof (Hos _ _ Hk);
  pose proof (sumZ_lookup fin_counted _ _ _ fin_counted_01 Hk);
  pose proof (sumZ_lookup post_pending _ _ _ post_pending_01 Hk);
  pose proof (lookup_lt_Some _ _ _ Hk).

Ltac slot_goal Hst Hcr Hjo Hos :=
  let k := fresh "k" in let pc := fresh "pc" in let Hk := fresh "Hk" in
  intros k pc Hk;
  try (apply list_lookup_insert_Some in Hk as [(? & ? & ?) | (? & Hk)]; subst);
  try (pose proof (Hst _ _ Hk); pose proof (Hcr _ _ Hk); pose proof (Hjo _ _ Hk);
       pose proof (Hos _ _ Hk));
  unf; first [ solve [own_solve] | destruct pc; unf; own_solve ].

Ltac case_main := match goal with x : main_pc |- _ => destruct x end.
Ltac case_ta := match goal with x : ta_pc |- _ => destruct x end.

Ltac inv_goals Hst Hcr Hjo Hos :=
  constructor; unf;
  try (erewrite sumZ_insert by eassumption; simpl);
  try rewrite length_insert;
  first [ assumption
        | solve [own_solve]
        | solve [slot_goal Hst Hcr Hjo Hos]
        | solve [case_main; unf; own_solve]
        | solve [case_ta; unf; own_solve]
        | solve [case_main; case_ta; unf; own_solve]
        | solve [case_main; slot_goal Hst Hcr Hjo Hos]
        | idtac ].

(** ** The invariant holds in every reachable state *)

Section Protocol.
Variables n_students n_chairs : Z.
Hypothesis students_range : 0 < n_students <= INT_MAX.
Hypothesis chairs_range : 0 <= n_chairs <= INT_MAX.

Lemma inv_initial : Inv n_students n_chairs (initial n_students n_chairs).
Proof.
  unfold initial. constructor; unf; try lia; try tauto; try discriminate;
    try (rewrite sumZ_replicate; simpl; lia);
    try (intros k pc Hk; apply lookup_replicate in Hk as [-> _]; simpl; intros;
         first [exact I | reflexivity | split; discriminate]);
    try (split; discriminate).
  apply length_replicate.
Qed.




Lemma sumZ_all f l :
  (forall k x, l !! k = Some x -> f x = 1) -> sumZ f l = Z.of_nat (length l).
Proof.
  induction l as [|a l IH]; intros H; simpl sumZ; simpl length; [lia|].
  rewrite (H 0%nat a eq_refl), IH; [lia|].
  intros k x Hk. apply (H (S k) x Hk).
Qed.

Lemma inv_step_main ok s s' :
  Inv n_students n_chairs s -> step_main ok s = Some s' ->
  Inv n_students n_chairs s'.
Proof.
  pose proof students_range as Hsr. pose proof chairs_range as Hcr'.
  clear students_range chairs_range.
  intros HI Hstep. unfold step_main, pthread_mutex_lock in Hstep.
  destruct s as [ns nc w f d m sem mpc tpc l out].
  destruct HI as [Hns Hnc Hslots Hw Hsem Hflag Hfin Hdone Hforced Htok Hmain Hta Hst Hcr Hjo Hfail Hom Hot Hos Hslot Hoe]; unf; subst ns nc.
  destruct mpc as [i|i| | | | | | |st]; unf.
  - destruct (Z.ltb_spec i n_students); [|simplify_eq; inv_goals Hst Hcr Hjo Hos].
    assert (Hi : (Z.to_nat i < length l)%nat) by lia.
    apply lookup_lt_is_Some_2 in Hi as [pc Hpc].
    assert (pc = StNotStarted) by (apply (Hcr _ _ Hpc); lia). subst pc.
    unfold int_incr in Hstep.
    rewrite wrap_int_id in Hstep by (unfold INT_MAX in *; lia).
    slot_facts Hst Hcr Hjo Hos Hpc.
    destruct ok; simplify_eq; inv_goals Hst Hcr Hjo Hos.
  - destruct (Z.ltb_spec i n_students); simplify_eq.
    + destruct (l !! Z.to_nat i) as [pc|] eqn:Hpc; [|discriminate].
      destruct (join_returns pc) eqn:Hgone; simplify_eq.
      unfold int_incr. rewrite wrap_int_id by (unfold INT_MAX in *; lia).
      slot_facts Hst Hcr Hjo Hos Hpc.
      inv_goals Hst Hcr Hjo Hos.
      intros k pc' Hk Hlt. destruct (decide (k = Z.to_nat i)) as [->|Hne].
      * congruence.
      * apply (Hjo _ _ Hk). lia.
    + inv_goals Hst Hcr Hjo Hos.
  - destruct m; simplify_eq. inv_goals Hst Hcr Hjo Hos.
  - simplify_eq. inv_goals Hst Hcr Hjo Hos.
  - simplify_eq. inv_goals Hst Hcr Hjo Hos.
  - simplify_eq. inv_goals Hst Hcr Hjo Hos.
  - destruct tpc; simplify_eq. inv_goals Hst Hcr Hjo Hos.
  - simplify_eq. inv_goals Hst Hcr Hjo Hos.
  - discriminate.
Qed.

Lemma inv_step_ta s s' :
  Inv n_students n_chairs s -> step_ta s = Some s' -> Inv n_students n_chairs s'.
Proof.
  pose proof students_range as Hsr. pose proof chairs_range as Hcr'.
  clear students_range chairs_range.
  intros HI Hstep. unfold step_ta, pthread_mutex_lock, sem_wait in Hstep.
  destruct s as [ns nc w f d m sem mpc tpc l out].
  destruct HI as [Hns Hnc Hslots Hw Hsem Hflag Hfin Hdone Hforced Htok Hmain Hta Hst Hcr Hjo Hfail Hom Hot Hos Hslot Hoe]; unf; subst ns nc.
  destruct tpc; unf.
  - simplify_eq. inv_goals Hst Hcr Hjo Hos.
  - destruct (Z.ltb_spec 0 sem); simplify_eq. inv_goals Hst Hcr Hjo Hos.
  - destruct m; simplify_eq. inv_goals Hst Hcr Hjo Hos.
  - destruct (Z.eqb_spec d 0); destruct (Z.eqb_spec w 0); simpl in Hstep;
      simplify_eq; inv_goals Hst Hcr Hjo Hos.
  - simplify_eq. inv_goals Hst Hcr Hjo Hos.
  - simplify_eq. inv_goals Hst Hcr Hjo Hos.
  - pose proof (sumZ_bounds post_pending l post_pending_01).
    destruct (Z.ltb_spec 0 w); simplify_eq; inv_goals Hst Hcr Hjo Hos.
  - simplify_eq. unfold int_decr. rewrite wrap_int_id by (unfold INT_MAX in *; lia).
    inv_goals Hst Hcr Hjo Hos.
  - simplify_eq. inv_goals Hst Hcr Hjo Hos.
  - simplify_eq. inv_goals Hst Hcr Hjo Hos.
  - contradiction.
  - contradiction.
  - discriminate.
Qed.

Lemma inv_step_student j s s' :
  Inv n_students n_chairs s -> step_student j s = Some s' ->
  Inv n_students n_chairs s'.
Proof.
  pose proof students_range as Hsr. pose proof chairs_range as Hcr'.
  clear students_range chairs_range.
  intros HI Hstep. unfold step_student, pthread_mutex_lock in Hstep.
  destruct s as [ns nc w f d m sem mpc tpc l out].
  destruct HI as [Hns Hnc Hslots Hw Hsem Hflag Hfin Hdone Hforced Htok Hmain Hta Hst Hcr Hjo Hfail Hom Hot Hos Hslot Hoe]; unf; subst ns nc.
  destruct (l !! j) as [pcj|] eqn:Hpc; [|discriminate].
  slot_facts Hst Hcr Hjo Hos Hpc.
  destruct pcj; unf.
  - discriminate.
  - destruct (Z.ltb_spec i 3); simplify_eq; inv_goals Hst Hcr Hjo Hos.
  - destruct m; simplify_eq. inv_goals Hst Hcr Hjo Hos.
  - destruct (Z.ltb_spec w n_chairs); simplify_eq; inv_goals Hst Hcr Hjo Hos.
  - simplify_eq. unfold int_incr. rewrite wrap_int_id by (unfold INT_MAX in *; lia).
    inv_goals Hst Hcr Hjo Hos.
  - simplify_eq. inv_goals Hst Hcr Hjo Hos.
  - simplify_eq. inv_goals Hst Hcr Hjo Hos.
  - simplify_eq. unfold int_incr. rewrite wrap_int_id by (unfold INT_MAX in *; lia).
    inv_goals Hst Hcr Hjo Hos.
  - simplify_eq. inv_goals Hst Hcr Hjo Hos.
  - simplify_eq. unfold int_incr. rewrite wrap_int_id by (unfold INT_MAX in *; lia).
    inv_goals Hst Hcr Hjo Hos.
  - destruct m; simplify_eq. inv_goals Hst Hcr Hjo Hos.
  - simplify_eq. unfold int_incr. rewrite wrap_int_id by (unfold INT_MAX in *; lia).
    inv_goals Hst Hcr Hjo Hos.
  - destruct (Z.eqb_spec f n_students) as [He|He];
      simpl in Hstep; injection Hstep as <-; inv_goals Hst Hcr Hjo Hos.
  - simplify_eq. inv_goals Hst Hcr Hjo Hos.
  - simplify_eq. inv_goals Hst Hcr Hjo Hos.
  - simplify_eq. inv_goals Hst Hcr Hjo Hos.
  - discriminate.
Qed.

Lemma inv_step t s s' :
  Inv n_students n_chairs s -> thread_step t s = Some s' ->
  Inv n_students n_chairs s'.
Proof.
  destruct t; simpl; eauto using inv_step_main, inv_step_ta, inv_step_student.
  destruct (at_create s); [eauto using inv_step_main|discriminate].
Qed.

Lemma inv_steps s tr s' :
  Inv n_students n_chairs s -> steps s tr s' -> Inv n_students n_chairs s'.
Proof.
  intros HI Hrun. induction Hrun as [|s t s1 tr s2 Hstep _ IH]; [assumption|].
  apply IH. exact (inv_step t s s1 HI Hstep).
Qed.

Lemma reachable_inv s :
  reachable n_students n_chairs s -> Inv n_students n_chairs s.
Proof. intros [tr Hrun]. exact (inv_steps _ _ _ inv_initial Hrun). Qed.

End Protocol.

(** ** Termination and absence of deadlock *)

Ltac meas :=
  unfold measure; unf;
  try (erewrite sumZ_insert by eassumption; simpl);
  unfold HELP_REQUESTS_PER_STUDENT in *; lia.

Lemma measure_step_main ns nc ok s s' :
  0 < ns <= INT_MAX -> 0 <= nc <= INT_MAX ->
  Inv ns nc s -> step_main ok s = Some s' -> measure s' < measure s.
Proof.
  intros Hsr Hcr' HI Hstep. unfold step_main, pthread_mutex_lock in Hstep.
  destruct s as [ns' nc' w f d m sem mpc tpc l out].
  destruct HI as [Hns Hnc Hslots Hw Hsem Hflag Hfin Hdone Hforced Htok Hmain Hta Hst Hcr Hjo Hfail Hom Hot Hos Hslot Hoe]; unf; subst ns' nc'.
  destruct mpc as [i|i| | | | | | |st]; unf.
  - destruct (Z.ltb_spec i ns); [|simplify_eq; meas].
    assert (Hi : (Z.to_nat i < length l)%nat) by lia.
    apply lookup_lt_is_Some_2 in Hi as [pc Hpc].
    assert (pc = StNotStarted) by (apply (Hcr _ _ Hpc); lia). subst pc.
    unfold int_incr in Hstep.
    rewrite wrap_int_id in Hstep by (unfold INT_MAX in *; lia).
    destruct ok; simplify_eq; meas.
  - destruct (Z.ltb_spec i ns); simplify_eq; [|meas].
    destruct (l !! Z.to_nat i) as [pc|] eqn:Hpc; [|discriminate].
    destruct (join_returns pc); simplify_eq.
    unfold int_incr. rewrite wrap_int_id by (unfold INT_MAX in *; lia). meas.
  - destruct m; simplify_eq. meas.
  - simplify_eq. meas.
  - simplify_eq. meas.
  - simplify_eq. meas.
  - destruct tpc; simplify_eq. meas.
  - simplify_eq. meas.
  - discriminate.
Qed.

Lemma measure_step_ta ns nc s s' :
  0 < ns <= INT_MAX -> 0 <= nc <= INT_MAX ->
  Inv ns nc s -> step_ta s = Some s' -> measure s' < measure s.
Proof.
  intros Hsr Hcr' HI Hstep. unfold step_ta, pthread_mutex_lock, sem_wait in Hstep.
  destruct s as [ns' nc' w f d m sem mpc tpc l out].
  destruct HI as [Hns Hnc Hslots Hw Hsem Hflag Hfin Hdone Hforced Htok Hmain Hta Hst Hcr Hjo Hfail Hom Hot Hos Hslot Hoe]; unf; subst ns' nc'.
  destruct tpc; unf; try discriminate; try contradiction;
    repeat match type of Hstep with
           | context [Z.ltb ?a ?b] => destruct (Z.ltb_spec a b)
           | context [Z.eqb ?a ?b] => destruct (Z.eqb_spec a b)
           | context [match ?x with None => _ | Some _ => _ end] => is_var x; destruct x
           end; simpl in Hstep; simplify_eq;
    unfold int_decr; try rewrite wrap_int_id by (unfold INT_MAX in *; lia); meas.
Qed.

Lemma measure_step_student ns nc j s s' :
  0 < ns <= INT_MAX -> 0 <= nc <= INT_MAX ->
  Inv ns nc s -> step_student j s = Some s' -> measure s' < measure s.
Proof.
  intros Hsr Hcr' HI Hstep. unfold step_student, pthread_mutex_lock in Hstep.
  destruct s as [ns' nc' w f d m sem mpc tpc l out].
  destruct HI as [Hns Hnc Hslots Hw Hsem Hflag Hfin Hdone Hforced Htok Hmain Hta Hst Hcr Hjo Hfail Hom Hot Hos Hslot Hoe]; unf; subst ns' nc'.
  destruct (l !! j) as [pcj|] eqn:Hpc; [|discriminate].
  pose proof (Hst _ _ Hpc) as Hok.
  destruct pcj; unf; try discriminate;
    repeat match type of Hstep with
           | context [Z.ltb ?a ?b] => destruct (Z.ltb_spec a b)
           | context [Z.eqb ?a ?b] => destruct (Z.eqb_spec a b)
           | context [match ?x with None => _ | Some _ => _ end] => is_var x; destruct x
           end; simpl in Hstep; try discriminate;
    injection Hstep as <-;
    unfold int_incr; try rewrite wrap_int_id by (unfold INT_MAX in *; lia); meas.
Qed.

Lemma measure_step ns nc t s s' :
  0 < ns <= INT_MAX -> 0 <= nc <= INT_MAX ->
  Inv ns nc s -> thread_step t s = Some s' -> measure s' < measure s.
Proof.
  destruct t; simpl;
    eauto using measure_step_main, measure_step_ta, measure_step_student.
  destruct (at_create s); [eauto using measure_step_main|discriminate].
Qed.

Lemma sumZ_nonneg f l :
  (forall k x, l !! k = Some x -> 0 <= f x) -> 0 <= sumZ f l.
Proof.
  induction l as [|a l IH]; intros H; simpl sumZ; [lia|].
  pose proof (H 0%nat a eq_refl).
  assert (0 <= sumZ f l) by (apply IH; intros k x Hk; apply (H (S k) x Hk)).
  lia.
Qed.

Lemma sumZ_zero f l :
  (forall k x, l !! k = Some x -> f x = 0) -> sumZ f l = 0.
Proof.
  induction l as [|a l IH]; intros H; simpl sumZ; [lia|].
  rewrite (H 0%nat a eq_refl), IH; [lia|].
  intros k x Hk. apply (H (S k) x Hk).
Qed.

Lemma measure_nonneg ns nc s :
  0 < ns <= INT_MAX -> Inv ns nc s -> 0 <= measure s.
Proof.
  intros Hsr HI.
  destruct HI as [Hns Hnc Hslots Hw Hsem Hflag Hfin Hdone Hforced Htok Hmain Hta Hst Hcre Hjo Hfail Hom Hot Hos Hslot Hoe].
  unfold measure.
  assert (0 <= sumZ student_measure (student_threads s)).
  { apply sumZ_nonneg. intros k x Hk. specialize (Hst _ _ Hk).
    destruct x; unf; lia. }
  assert (0 <= ta_measure (ta s)) by (destruct (ta s); simpl; lia).
  assert (0 <= main_measure (num_students s) (main_thread s)).
  { unfold main_ok in *. destruct (main_thread s); simpl; lia. }
  lia.
Qed.

Lemma measure_steps ns nc s tr s' :
  0 < ns <= INT_MAX -> 0 <= nc <= INT_MAX ->
  Inv ns nc s -> steps s tr s' ->
  measure s' + Z.of_nat (length tr) <= measure s.
Proof.
  intros Hsr Hcr HI Hrun.
  induction Hrun as [|s t s1 tr s2 Hstep _ IH]; simpl length; [lia|].
  pose proof (measure_step _ _ _ _ _ Hsr Hcr HI Hstep).
  specialize (IH (inv_step _ _ Hsr Hcr _ _ _ HI Hstep)). lia.
Qed.

Lemma measure_initial ns nc : 0 <= ns -> measure (initial ns nc) = 55 * ns + 17.
Proof.
  intros Hns. unfold measure, initial; simpl. rewrite sumZ_replicate.
  rewrite Z2Nat.id by lia. unfold student_measure, HELP_REQUESTS_PER_STUDENT. lia.
Qed.

Lemma run_bounded ns nc tr s :
  0 < ns <= INT_MAX -> 0 <= nc <= INT_MAX ->
  steps (initial ns nc) tr s -> Z.of_nat (length tr) <= 55 * ns + 17.
Proof.
  intros Hsr Hcr Hrun.
  pose proof (measure_steps _ _ _ _ _ Hsr Hcr (inv_initial _ _ Hsr Hcr) Hrun).
  pose proof (measure_nonneg _ _ _ Hsr (inv_steps _ _ Hsr Hcr _ _ _ (inv_initial _ _ Hsr Hcr) Hrun)).
  rewrite measure_initial in * by lia. lia.
Qed.

Lemma join_returns_spec pc :
  join_returns pc = true -> pc = StExited \/ pc = StNotStarted.
Proof. destruct pc; try discriminate; auto. Qed.

(** A student outside its critical sections, created and not yet exited,
    can always move when the mutex is free. *)
Lemma student_can_move j s pc :
  student_threads s !! j = Some pc -> mutex s = None ->
  pc <> StNotStarted -> pc <> StExited ->
  exists s', step_student j s = Some s'.
Proof.
  intros Hpc Hm Hns Hex. unfold step_student, pthread_mutex_lock.
  rewrite Hpc, Hm.
  destruct pc; try congruence; eauto;
    repeat match goal with |- context [if ?b then _ else _] => destruct b end; eauto.
Qed.

Lemma holder_can_move ns nc s :
  Inv ns nc s -> mutex s <> None -> exists t s', thread_step t s = Some s'.
Proof.
  intros HI Hm.
  destruct HI as [Hns Hnc Hslots Hw Hsem Hflag Hfin Hdone Hforced Htok Hmain Hta Hst Hcre Hjo Hfail Hom Hot Hos Hslot Hoe].
  destruct (mutex s) as [[| |j|]|] eqn:Hmx; [| | |congruence|congruence].
  - exists TMain. simpl. unfold step_main.
    pose proof (proj2 Hom eq_refl) as Hh. destruct (main_thread s); try discriminate; eauto.
  - exists TTa. simpl. unfold step_ta.
    pose proof (proj2 Hot eq_refl) as Hh. destruct (ta s); try discriminate; eauto;
      repeat match goal with |- context [if ?b then _ else _] => destruct b end; eauto.
  - exists (TStudent j). simpl. unfold step_student.
    destruct (lookup_lt_is_Some_2 _ _ (Hslot _ eq_refl)) as [pc Hpc].
    rewrite Hpc. pose proof (proj2 (Hos _ _ Hpc) eq_refl) as Hh.
    destruct pc; try discriminate; eauto;
      repeat match goal with |- context [if ?b then _ else _] => destruct b end; eauto.
Qed.

Lemma progress ns nc s :
  0 < ns <= INT_MAX -> 0 <= nc <= INT_MAX ->
  Inv ns nc s -> finished s \/ exists t s', thread_step t s = Some s'.
Proof.
  intros Hsr Hcr HI.
  destruct (mutex s) as [o|] eqn:Hmx.
  { right. apply (holder_can_move ns nc); [assumption|congruence]. }
  pose proof HI as [Hns Hnc Hslots Hw Hsem Hflag Hfin Hdone Hforced Htok Hmain Hta Hst Hcre Hjo Hfail Hom Hot Hos Hslot Hoe].
  unfold main_ok, joined, created in *.
  destruct (main_thread s) as [i|i| | | | | | |st] eqn:Hmain_pc.
  - right. exists TMain. simpl. unfold step_main. rewrite Hmain_pc.
    destruct (i <? num_students s); eauto.
  - right. destruct (Z.ltb_spec i (num_students s)) as [Hlt|Hge].
    + assert (Hi : (Z.to_nat i < length (student_threads s))%nat) by lia.
      apply lookup_lt_is_Some_2 in Hi as [pc Hpc].
      destruct (join_returns pc) eqn:Hgone.
      * exists TMain. simpl. unfold step_main. rewrite Hmain_pc, Hpc, Hgone.
        destruct (Z.ltb_spec i (num_students s)); [eauto|lia].
      * destruct (student_can_move _ _ _ Hpc Hmx) as [s' Hs'];
          [intros ->; discriminate|intros ->; discriminate|].
        exists (TStudent (Z.to_nat i)), s'. exact Hs'.
    + exists TMain. simpl. unfold step_main. rewrite Hmain_pc.
      destruct (Z.ltb_spec i (num_students s)); [lia|eauto].
  - right. exists TMain. simpl. unfold step_main, pthread_mutex_lock.
    rewrite Hmain_pc, Hmx. eauto.
  - right. exists TMain. simpl. unfold step_main. rewrite Hmain_pc. eauto.
  - right. exists TMain. simpl. unfold step_main. rewrite Hmain_pc. eauto.
  - right. exists TMain. simpl. unfold step_main. rewrite Hmain_pc. eauto.
  - right.
    assert (Hpend : sumZ post_pending (student_threads s) = 0).
    { apply sumZ_zero. intros k x Hk.
      assert (Hg : join_returns x = true)
        by (apply (Hjo _ _ Hk); apply lookup_lt_Some in Hk; lia).
      destruct x; try discriminate; reflexivity. }
    simpl in Htok.
    destruct (ta s) eqn:Hta_pc;
      try (exists TTa; simpl; unfold step_ta, pthread_mutex_lock, sem_wait;
           rewrite Hta_pc, ?Hmx;
           repeat match goal with |- context [if ?b then _ else _] => destruct b end;
           solve [eauto]).
    + exists TTa. simpl. unfold step_ta, sem_wait. rewrite Hta_pc.
      simpl in Htok. destruct (Z.ltb_spec 0 (students_sem s)); [eauto|lia].
    + exists TMain. simpl. unfold step_main. rewrite Hmain_pc, Hta_pc. eauto.
  - right. exists TMain. simpl. unfold step_main. rewrite Hmain_pc. eauto.
  - left. destruct Hmain as [-> Hta_pc]. split; [assumption|split; [assumption|]].
    intros k pc Hk. apply join_returns_spec.
    apply (Hjo _ _ Hk). apply lookup_lt_Some in Hk. lia.
Qed.

Lemma stuck_finished ns nc s :
  0 < ns <= INT_MAX -> 0 <= nc <= INT_MAX ->
  Inv ns nc s -> stuck s -> finished s.
Proof.
  intros Hsr Hcr HI Hstuck.
  destruct (progress _ _ _ Hsr Hcr HI) as [Hf|(t & s' & Hs')]; [assumption|].
  rewrite (Hstuck t) in Hs'. discriminate.
Qed.

(** ** The first-enabled scheduler reaches the end *)

Lemma first_enabled_Some ts s s' :
  first_enabled ts s = Some s' -> exists t, thread_step t s = Some s'.
Proof.
  induction ts as [|t ts IH]; simpl; [discriminate|].
  destruct (thread_step t s) eqn:Ht; [|exact IH].
  intros [= <-]. eauto.
Qed.

Lemma first_enabled_None ts s t :
  first_enabled ts s = None -> In t ts -> thread_step t s = None.
Proof.
  induction ts as [|t' ts IH]; simpl; [tauto|].
  destruct (thread_step t' s) eqn:Ht; [discriminate|].
  intros Hn [->|Hin]; auto.
Qed.

(** A failing [pthread_create] is a step of [main], which could as well
    have succeeded. *)
Lemma all_threads_complete t s :
  thread_step t s <> None ->
  In t (all_threads s) \/ thread_step TMain s <> None.
Proof.
  unfold all_threads. destruct t as [| |k|]; simpl.
  - auto.
  - auto.
  - intros Hk. left. right. right. apply in_map, in_seq.
    unfold step_student in Hk.
    destruct (student_threads s !! k) eqn:Hl; [|congruence].
    apply lookup_lt_Some in Hl. lia.
  - intros Hk. right. unfold at_create, step_main in *.
    destruct (main_thread s); try congruence.
    destruct (i <? num_students s); congruence.
Qed.

Lemma first_enabled_stuck s : first_enabled (all_threads s) s = None -> stuck s.
Proof.
  intros Hn t. destruct (thread_step t s) eqn:Ht; [|reflexivity].
  destruct (all_threads_complete t s) as [Hin|Hmain]; [congruence| |].
  - rewrite (first_enabled_None _ _ t Hn Hin) in Ht. discriminate.
  - exfalso. apply Hmain. apply (first_enabled_None _ _ TMain Hn).
    left. reflexivity.
Qed.


Lemma run_to_end_finished ns nc fuel s :
  0 < ns <= INT_MAX -> 0 <= nc <= INT_MAX ->
  Inv ns nc s -> measure s <= Z.of_nat fuel -> finished (run_to_end fuel s).
Proof.
  intros Hsr Hcr. revert s.
  induction fuel as [|fuel IH]; intros s HI Hm; cbn [run_to_end].
  - destruct (progress _ _ _ Hsr Hcr HI) as [Hf|(t & s' & Hs')]; [assumption|].
    pose proof (measure_step _ _ _ _ _ Hsr Hcr HI Hs').
    pose proof (measure_nonneg _ _ _ Hsr (inv_step _ _ Hsr Hcr _ _ _ HI Hs')). lia.
  - destruct (first_enabled (all_threads s) s) as [s1|] eqn:Hf.
    + destruct (first_enabled_Some _ _ _ Hf) as [t Ht].
      apply IH; [exact (inv_step _ _ Hsr Hcr _ _ _ HI Ht)|].
      pose proof (measure_step _ _ _ _ _ Hsr Hcr HI Ht). lia.
    + apply (stuck_finished ns nc); auto using first_enabled_stuck.
Qed.

(** ** Case analysis on one step *)

Ltac break_step Hstep :=
  repeat match type of Hstep with
         | context [Z.ltb ?a ?b] => destruct (Z.ltb_spec a b)
         | context [Z.eqb ?a ?b] => destruct (Z.eqb_spec a b)
         | context [match mutex ?x with None => _ | Some _ => _ end] =>
             let Hmx := fresh "Hmx" in destruct (mutex x) eqn:Hmx
         | context [ta ?x] =>
             let Htpc := fresh "Htpc" in destruct (ta x) eqn:Htpc
         | context [?l !! ?k] =>
             let Hjoin := fresh "Hjoin" in destruct (l !! k) as [[]|] eqn:Hjoin
         end;
  simpl in Hstep; try discriminate; injection Hstep as <-.

Ltac step_cases t s Hstep :=
  let Hmpc := fresh "Hmpc" in
  let Htpc := fresh "Htpc" in
  let Hpc := fresh "Hpc" in
  destruct t as [| |?j|]; simpl in Hstep;
  [ unfold step_main, pthread_mutex_lock in Hstep; simpl in Hstep;
    destruct (main_thread s) eqn:Hmpc
  | unfold step_ta, pthread_mutex_lock, sem_wait in Hstep; simpl in Hstep;
    destruct (ta s) eqn:Htpc
  | unfold step_student, pthread_mutex_lock in Hstep; simpl in Hstep;
    destruct (student_threads s !! j) as [[]|] eqn:Hpc
  | unfold at_create, step_main in Hstep; simpl in Hstep;
    destruct (main_thread s) eqn:Hmpc ];
  simpl in Hstep; try discriminate; break_step Hstep.

Ltac use_inv HI :=
  destruct HI as [Hns Hnc Hslots Hw Hsem Hflag Hfin Hdone Hforced Htok Hmain
                  Hta Hst Hcre Hjo Hfail Hom Hot Hos Hslot Hoe].

Ltac no_wrap :=
  unfold int_incr, int_decr;
  try rewrite wrap_int_id by (unfold INT_MAX in *; lia).

(** Each step changes [waiting_students] by at most one, upwards only by a
    student holding the mutex with a free chair, downwards only by the TA
    holding the mutex with a student waiting. *)
Lemma waiting_step ns nc t s s' :
  0 < ns <= INT_MAX -> 0 <= nc <= INT_MAX ->
  Inv ns nc s -> thread_step t s = Some s' ->
  waiting_students s' = waiting_students s \/
  (waiting_students s' = waiting_students s + 1 /\
   waiting_students s < num_chairs s /\ mutex s = Some t /\
   exists k, t = TStudent k) \/
  (waiting_students s' = waiting_students s - 1 /\
   0 < waiting_students s /\ mutex s = Some t /\ t = TTa).
Proof.
  intros Hsr Hcr HI Hstep. use_inv HI.
  step_cases t s Hstep; simpl; auto.
  - right. right. unfold ta_ok in Hta. rewrite Htpc in Hta.
    no_wrap. repeat split; try lia. apply Hot. reflexivity.
  - right. left. pose proof (Hst _ _ Hpc) as Hok. simpl in Hok.
    no_wrap. repeat split; try lia; eauto. apply (Hos _ _ Hpc). reflexivity.
Qed.

(** While a thread holds the mutex, no other thread changes the shared
    counters or the mutex. *)
Lemma others_keep_shared ns nc t0 t s s' :
  Inv ns nc s -> mutex s = Some t0 -> t <> t0 -> thread_step t s = Some s' ->
  waiting_students s' = waiting_students s /\
  students_finished s' = students_finished s /\
  all_done s' = all_done s /\ mutex s' = mutex s.
Proof.
  intros HI Hm Hne Hstep. use_inv HI.
  step_cases t s Hstep; simpl; auto; try congruence;
    try (pose proof (proj1 Hom eq_refl); congruence);
    try (pose proof (proj1 Hot eq_refl); congruence);
    try (pose proof (proj1 (Hos _ _ Hpc) eq_refl); congruence).
Qed.

(** [all_done] is only ever written with 1, by [main] at [all_done = 1] or
    by a student at the same statement. *)
Lemma flag_step t s s' :
  thread_step t s = Some s' ->
  all_done s' = all_done s \/
  (all_done s' = 1 /\
   ((t = TMain /\ main_thread s = MSetDone) \/
    exists k, t = TStudent k /\ student_threads s !! k = Some StFinSet)).
Proof.
  intros Hstep. step_cases t s Hstep; simpl; eauto 10.
Qed.

Lemma count_steps_nonneg ev s tr : 0 <= count_steps ev s tr.
Proof.
  revert s. induction tr as [|s1 tr IH]; intros s; simpl; [lia|].
  specialize (IH s1). destruct (ev s s1); lia.
Qed.

Lemma count_waiting ns nc s tr s' :
  0 < ns <= INT_MAX -> 0 <= nc <= INT_MAX ->
  Inv ns nc s -> steps s tr s' ->
  count_steps admission s tr - count_steps release s tr
  = waiting_students s' - waiting_students s.
Proof.
  intros Hsr Hcr HI Hrun.
  induction Hrun as [|s t s1 tr s2 Hstep _ IH]; cbn [count_steps]; [lia|].
  specialize (IH (inv_step _ _ Hsr Hcr _ _ _ HI Hstep)).
  pose proof (waiting_step _ _ _ _ _ Hsr Hcr HI Hstep) as Hw.
  unfold admission at 1, release at 1.
  destruct (Z.ltb_spec (waiting_students s) (waiting_students s1));
    destruct (Z.ltb_spec (waiting_students s1) (waiting_students s)); lia.
Qed.

Lemma count_flag ns nc s tr s' :
  0 < ns <= INT_MAX -> 0 <= nc <= INT_MAX ->
  Inv ns nc s -> steps s tr s' ->
  count_steps flag_rises s tr = all_done s' - all_done s.
Proof.
  intros Hsr Hcr HI Hrun.
  induction Hrun as [|s t s1 tr s2 Hstep _ IH]; cbn [count_steps]; [lia|].
  pose proof (inv_step _ _ Hsr Hcr _ _ _ HI Hstep) as HI1.
  specialize (IH HI1).
  pose proof (inv_flag _ _ _ HI). pose proof (inv_flag _ _ _ HI1).
  pose proof (flag_step _ _ _ Hstep).
  unfold flag_rises at 1.
  destruct (Z.eqb_spec (all_done s) 0); destruct (Z.eqb_spec (all_done s1) 0);
    simpl; lia.
Qed.

(** ** Admission attempts of one student *)

Lemma attempt_step ns nc k t s s1 :
  0 < ns <= INT_MAX -> 0 <= nc <= INT_MAX ->
  Inv ns nc s -> thread_step t s = Some s1 ->
  (if attempt_by k s s1 then 1 else 0) = attempts_of k s1 - attempts_of k s.
Proof.
  intros Hsr Hcr HI Hstep. use_inv HI.
  assert (Hsame : forall s1, student_threads s1 = student_threads s ->
            (if attempt_by k s s1 then 1 else 0)
            = attempts_of k s1 - attempts_of k s).
  { intros s' Heq. unfold attempt_by, attempts_of. rewrite Heq.
    destruct (student_threads s !! k) as [[]|]; lia. }
  assert (Hupd : forall j pc pc' s0,
            student_threads s0 = student_threads s ->
            student_threads s !! j = Some pc ->
            (j = k -> (match pc, pc' with
                       | StTest _, (StSit _ | StFull _) => 1
                       | _, _ => 0
                       end) = attempts_made pc' - attempts_made pc) ->
            (if attempt_by k s (set_student j pc' s0) then 1 else 0)
            = attempts_of k (set_student j pc' s0) - attempts_of k s).
  { intros j pc pc' s0 Heq Hj Hcase. unfold attempt_by, attempts_of. simpl.
    rewrite Heq. destruct (decide (j = k)) as [->|Hne].
    - rewrite list_lookup_insert_eq by (eapply lookup_lt_Some; eauto).
      rewrite Hj. specialize (Hcase eq_refl).
      destruct pc, pc'; simpl in *; lia.
    - rewrite list_lookup_insert_ne by assumption.
      destruct (student_threads s !! k) as [[]|]; lia. }
  step_cases t s Hstep;
    try (apply Hsame; reflexivity);
    try (eapply Hupd; [reflexivity|eassumption|];
         intros _; pose proof (Hst _ _ Hpc) as Hok; unf; no_wrap; lia).
  (* creation of a student thread *)
  assert (Hi : (Z.to_nat i < length (student_threads s))%nat) by (unfold main_ok in Hmain; rewrite Hmpc in Hmain; lia).
  apply lookup_lt_is_Some_2 in Hi as [pc Hpc].
  assert (pc = StNotStarted) as ->.
  { apply (Hcre _ _ Hpc). unfold created. rewrite Hmpc. unfold main_ok in Hmain. rewrite Hmpc in Hmain. lia. }
  eapply (Hupd _ _ _ (set_main _ s)); [reflexivity|eassumption|]. intros _. simpl. lia.
Qed.

Lemma count_attempts ns nc k s tr s' :
  0 < ns <= INT_MAX -> 0 <= nc <= INT_MAX ->
  Inv ns nc s -> steps s tr s' ->
  count_steps (attempt_by k) s tr = attempts_of k s' - attempts_of k s.
Proof.
  intros Hsr Hcr HI Hrun.
  induction Hrun as [|s t s1 tr s2 Hstep _ IH]; cbn [count_steps]; [lia|].
  specialize (IH (inv_step _ _ Hsr Hcr _ _ _ HI Hstep)).
  pose proof (attempt_step _ _ k _ _ _ Hsr Hcr HI Hstep). lia.
Qed.

(** The chairs in use never exceed the admission attempts completed. *)
Lemma seats_step ns nc t s s' :
  0 < ns <= INT_MAX -> 0 <= nc <= INT_MAX ->
  Inv ns nc s -> thread_step t s = Some s' ->
  waiting_students s <= sumZ seats_bound (student_threads s) ->
  waiting_students s' <= sumZ seats_bound (student_threads s').
Proof.
  intros Hsr Hcr HI Hstep Hle. use_inv HI.
  step_cases t s Hstep; simpl; auto;
    try (erewrite sumZ_insert by eassumption; simpl;
         pose proof (Hst _ _ Hpc) as Hok; unfold ta_ok in *; unf; no_wrap; lia).
  - assert (Hi : (Z.to_nat i < length (student_threads s))%nat)
      by (unfold main_ok in Hmain; rewrite Hmpc in Hmain; lia).
    apply lookup_lt_is_Some_2 in Hi as [pc Hpc].
    assert (pc = StNotStarted) as ->.
    { apply (Hcre _ _ Hpc). unfold created. rewrite Hmpc.
      unfold main_ok in Hmain. rewrite Hmpc in Hmain. lia. }
    erewrite sumZ_insert by eassumption. simpl. lia.
  - unfold ta_ok in Hta. rewrite Htpc in Hta. no_wrap. lia.
Qed.

Lemma seats_steps ns nc s tr s' :
  0 < ns <= INT_MAX -> 0 <= nc <= INT_MAX ->
  Inv ns nc s -> steps s tr s' ->
  waiting_students s <= sumZ seats_bound (student_threads s) ->
  waiting_students s' <= sumZ seats_bound (student_threads s').
Proof.
  intros Hsr Hcr HI Hrun.
  induction Hrun as [|s t s1 tr s2 Hstep _ IH]; [auto|].
  intros Hle. apply IH; [exact (inv_step _ _ Hsr Hcr _ _ _ HI Hstep)|].
  eapply seats_step; eauto.
Qed.

(** ** With no chairs the TA never reaches the serving side of its loop *)

Lemma no_service_step ns t s s' :
  0 < ns <= INT_MAX ->
  Inv ns 0 s -> thread_step t s = Some s' ->
  ta_serving (ta s) = false -> ta_serving (ta s') = false.
Proof.
  intros Hsr HI Hstep Hno. use_inv HI.
  pose proof (sumZ_bounds post_pending (student_threads s) post_pending_01).
  step_cases t s Hstep; simpl in *; try rewrite Htpc; simpl; auto;
    try discriminate.
  all: exfalso; destruct (main_thread s) eqn:Hm; simpl in *; try lia.
  all: specialize (Hforced eq_refl); lia.
Qed.

Lemma no_service_steps ns s tr s' :
  0 < ns <= INT_MAX ->
  Inv ns 0 s -> steps s tr s' ->
  ta_serving (ta s) = false -> ta_serving (ta s') = false.
Proof.
  intros Hsr HI Hrun.
  assert (Hcr : 0 <= 0 <= INT_MAX) by (unfold INT_MAX; lia).
  induction Hrun as [|s t s1 tr s2 Hstep _ IH]; [auto|].
  intros Hno. apply IH; [exact (inv_step _ _ Hsr Hcr _ _ _ HI Hstep)|].
  eapply no_service_step; eauto.
Qed.

(** ** When the TA leaves its loop *)

Lemma exit_after_shutdown ns nc s :
  Inv ns nc s -> ta_left_loop (ta s) = true ->
  main_posted (main_thread s) = 1 /\ waiting_students s = 0 /\
  all_done s = 1 /\
  forall k pc, student_threads s !! k = Some pc -> join_returns pc = true.
Proof.
  intros HI Hleft. use_inv HI.
  pose proof (sumZ_bounds post_pending (student_threads s) post_pending_01).
  unfold ta_ok, joined in *.
  assert (Hp : main_posted (main_thread s) = 1).
  { destruct (ta s); try discriminate; simpl in *;
      destruct (main_thread s); simpl in *; lia. }
  repeat split; try (destruct (ta s); try discriminate; simpl in *; lia).
  intros k pc Hk. apply (Hjo _ _ Hk). apply lookup_lt_Some in Hk.
  destruct (main_thread s); simpl in *; try lia.
Qed.

(** ** The admission protocol *)

Lemma try_occupy_seat_spec ns nc s k i :
  0 <= nc <= INT_MAX -> Inv ns nc s ->
  student_threads s !! k = Some (StLock i) -> mutex s = None ->
  exists s',
    try_occupy_seat k s
    = Some (if waiting_students s <? num_chairs s then Granted else Rejected, s') /\
    waiting_students s'
    = (if waiting_students s <? num_chairs s
       then waiting_students s + 1 else waiting_students s) /\
    student_threads s' !! k
    = Some (if waiting_students s <? num_chairs s then StPost i else StFullSleep i) /\
    mutex s' = None /\
    students_finished s' = students_finished s /\ all_done s' = all_done s.
Proof.
  intros Hcr HI Hk Hm. use_inv HI.
  pose proof (lookup_lt_Some _ _ _ Hk) as Hlt.
  destruct s as [ns' nc' w f d m sem mpc tpc l out]; simpl in *. subst m.
  unfold try_occupy_seat. simpl. unfold step_student, pthread_mutex_lock. simpl.
  rewrite Hk. simpl.
  rewrite list_lookup_insert_eq by assumption.
  destruct (Z.ltb_spec w nc') as [Hfree|Hfull]; simpl.
  - repeat (rewrite ?list_lookup_insert_eq by (rewrite ?length_insert; assumption); simpl).
    unfold int_incr. rewrite wrap_int_id by (unfold INT_MAX in *; lia).
    eexists. split; [reflexivity|]. simpl.
    rewrite list_lookup_insert_eq by (rewrite ?length_insert; assumption). auto.
  - repeat (rewrite ?list_lookup_insert_eq by (rewrite ?length_insert; assumption); simpl).
    eexists. split; [reflexivity|]. simpl.
    rewrite list_lookup_insert_eq by (rewrite ?length_insert; assumption). auto.
Qed.

(** Only the lock acquisition of the admission protocol can block. *)
Lemma admission_lock_blocks k s i :
  student_threads s !! k = Some (StLock i) ->
  (thread_step (TStudent k) s = None <-> mutex s <> None).
Proof.
  intros Hk. simpl. unfold step_student, pthread_mutex_lock. rewrite Hk.
  destruct (mutex s); split; congruence.
Qed.

Lemma admission_never_blocks k s pc :
  student_threads s !! k = Some pc -> in_admission pc = true ->
  (forall i, pc <> StLock i) -> thread_step (TStudent k) s <> None.
Proof.
  intros Hk Hin Hnl. simpl. unfold step_student. rewrite Hk.
  destruct pc; try discriminate;
    repeat match goal with |- context [if ?b then _ else _] => destruct b end;
    try discriminate.
  exfalso. eapply Hnl; reflexivity.
Qed.

Lemma schedule_trace_steps sched s :
  is_Some (run_schedule sched s) ->
  steps s (schedule_trace sched s) (after sched s).
Proof.
  unfold after. revert s. induction sched as [|t sched IH]; intros s; simpl.
  - intros _. constructor.
  - destruct (thread_step t s) as [s1|] eqn:Ht; [|intros [? [=]]].
    intros Hs. specialize (IH s1 Hs). destruct Hs as [s' Hs'].
    rewrite Hs' in *. econstructor; eauto.
Qed.

Lemma no_chairs_no_moves ns s tr s' :
  0 < ns <= INT_MAX -> Inv ns 0 s -> steps s tr s' ->
  count_steps admission s tr = 0 /\ count_steps release s tr = 0.
Proof.
  intros Hsr HI Hrun.
  assert (Hcr : 0 <= 0 <= INT_MAX) by (unfold INT_MAX; lia).
  induction Hrun as [|s t s1 tr s2 Hstep _ IH]; cbn [count_steps]; [lia|].
  pose proof (inv_step _ _ Hsr Hcr _ _ _ HI Hstep) as HI1.
  specialize (IH HI1).
  pose proof (inv_waiting _ _ _ HI). pose proof (inv_waiting _ _ _ HI1).
  unfold admission at 1, release at 1.
  destruct (Z.ltb_spec (waiting_students s) (waiting_students s1));
    destruct (Z.ltb_spec (waiting_students s1) (waiting_students s)); lia.
Qed.

Lemma shutdown_is_force_terminal s s1 :
  main_thread s = MLock -> force_terminal s = Some s1 ->
  run_schedule [TMain; TMain; TMain] s = Some (set_main MPost s1).
Proof.
  unfold force_terminal, pthread_mutex_lock. intros Hpc Hf.
  destruct s as [ns' nc' w f d m sem mpc tpc l out]; simpl in *. subst mpc.
  destruct m; [discriminate|]. injection Hf as <-.
  reflexivity.
Qed.

(** ** Runs and sums *)

Lemma steps_app s tr1 s1 tr2 s2 :
  steps s tr1 s1 -> steps s1 tr2 s2 -> steps s (tr1 ++ tr2) s2.
Proof.
  intros H1 H2. induction H1 as [|s t s' tr s1 Hstep _ IH]; simpl; [assumption|].
  econstructor; eauto.
Qed.

Lemma sumZ_ext f g l :
  (forall k x, l !! k = Some x -> f x = g x) -> sumZ f l = sumZ g l.
Proof.
  induction l as [|a l IH]; intros H; simpl sumZ; [reflexivity|].
  rewrite (H 0%nat a eq_refl), IH; [reflexivity|].
  intros k x Hk. apply (H (S k) x Hk).
Qed.

Lemma started_01 x : 0 <= started x <= 1.
Proof. destruct x; simpl; lia. Qed.

Lemma count_lines_nonneg p out : 0 <= count_lines p out.
Proof. induction out as [|l out IH]; simpl; [lia|]. destruct (p l); lia. Qed.

(** ** Failed creations *)

Lemma created_bounds ns nc s :
  0 < ns -> Inv ns nc s ->
  0 <= joined s <= created s /\ created s <= num_students s.
Proof.
  intros Hpos HI. use_inv HI.
  unfold joined, created, main_ok in *. destruct (main_thread s); lia.
Qed.

Lemma failed_creates_bounds ns nc s :
  Inv ns nc s -> 0 <= failed_creates s <= created s.
Proof.
  intros HI. pose proof (inv_failed _ _ _ HI) as Hfail.
  pose proof (sumZ_bounds started (student_threads s) started_01).
  pose proof (count_lines_nonneg is_create_error (stdout s)).
  unfold failed_creates in *. lia.
Qed.

(** Once the creation loop is over, the slots without a thread are those
    whose creation failed. *)
Lemma all_started_without_failure ns nc s k pc :
  Inv ns nc s -> created s = num_students s -> failed_creates s = 0 ->
  student_threads s !! k = Some pc -> pc <> StNotStarted.
Proof.
  intros HI Hc Hf Hk. pose proof (inv_failed _ _ _ HI) as Hfail.
  pose proof (inv_slots _ _ _ HI). pose proof (inv_students _ _ _ HI).
  pose proof (sumZ_lookup started _ _ _ started_01 Hk) as Hl.
  intros ->. simpl in Hl. lia.
Qed.

(** When [all_done] is set, every thread that was created has been
    counted. *)
Lemma flag_counts ns nc s :
  0 < ns -> Inv ns nc s -> all_done s = 1 ->
  students_finished s = num_students s - failed_creates s.
Proof.
  intros Hpos HI Hd.
  pose proof (created_bounds _ _ _ Hpos HI) as Hcb.
  pose proof (failed_creates_bounds _ _ _ HI) as Hfb.
  use_inv HI.
  destruct (main_forced (main_thread s)) eqn:Hmf.
  - assert (Hj : joined s = num_students s /\ created s = num_students s).
    { unfold joined, created. destruct (main_thread s); try discriminate; auto. }
    rewrite Hfin, (sumZ_ext fin_counted started); [lia|].
    intros k x Hk.
    assert (Hg : join_returns x = true)
      by (apply (Hjo _ _ Hk); apply lookup_lt_Some in Hk; lia).
    destruct x; try discriminate; reflexivity.
  - specialize (Hdone Hd eq_refl).
    assert (Hall : sumZ started (student_threads s)
                   = Z.of_nat (length (student_threads s))).
    { apply sumZ_all. intros k x Hk.
      pose proof (sumZ_lookup fin_counted _ _ _ fin_counted_01 Hk) as Hl.
      destruct x; simpl in *; try reflexivity; lia. }
    lia.
Qed.

(** After the final post of [main] the TA is never blocked. *)
Lemma ta_runs_after_post ns nc s :
  Inv ns nc s -> main_posted (main_thread s) = 1 ->
  ta s = TaExited \/ exists s', thread_step TTa s = Some s'.
Proof.
  intros HI Hpost. use_inv HI.
  assert (Hj : joined s = num_students s).
  { unfold joined. destruct (main_thread s); try discriminate; auto. }
  assert (Hgone : forall k x, student_threads s !! k = Some x ->
                    join_returns x = true).
  { intros k x Hk. apply (Hjo _ _ Hk). apply lookup_lt_Some in Hk. lia. }
  assert (Hpend : sumZ post_pending (student_threads s) = 0).
  { apply sumZ_zero. intros k x Hk. specialize (Hgone _ _ Hk).
    destruct x; try discriminate; reflexivity. }
  assert (Hfree : mutex s = None \/ mutex s = Some TTa).
  { destruct (mutex s) as [[| |k|]|] eqn:Hmx; auto; exfalso.
    - pose proof (proj2 Hom eq_refl) as Hh.
      destruct (main_thread s); discriminate.
    - destruct (lookup_lt_is_Some_2 _ _ (Hslot _ eq_refl)) as [x Hk].
      pose proof (proj2 (Hos _ _ Hk) eq_refl) as Hh.
      specialize (Hgone _ _ Hk). destruct x; discriminate.
    - congruence. }
  simpl. unfold step_ta, pthread_mutex_lock, sem_wait.
  destruct (ta s) eqn:Htpc; auto; right;
    try (repeat match goal with
                | |- context [if ?b then _ else _] => destruct b
                end; solve [eauto]).
  - simpl in Htok. destruct (Z.ltb_spec 0 (students_sem s)); [eauto|lia].
  - destruct Hfree as [Hm|Hm]; rewrite Hm; [eauto|].
    pose proof (proj2 Hot Hm) as Hh. simpl in Hh. discriminate.
Qed.

Lemma run_to_end_trace_steps fuel s :
  steps s (run_to_end_trace fuel s) (run_to_end fuel s).
Proof.
  revert s. induction fuel as [|fuel IH]; intros s;
    cbn [run_to_end run_to_end_trace]; [constructor|].
  destruct (first_enabled (all_threads s) s) as [s1|] eqn:Hf; [|constructor].
  destruct (first_enabled_Some _ _ _ Hf) as [t Ht].
  econstructor; eauto.
Qed.

Lemma steps_inv ns nc tr s :
  0 < ns <= INT_MAX -> 0 <= nc <= INT_MAX ->
  steps (initial ns nc) tr s -> Inv ns nc s.
Proof.
  intros Hsr Hcr Hrun.
  exact (inv_steps _ _ Hsr Hcr _ _ _ (inv_initial _ _ Hsr Hcr) Hrun).
Qed.

(** ** Posts and wake-ups *)

Lemma sem_step ns nc t s s1 :
  0 < ns <= INT_MAX -> 0 <= nc <= INT_MAX ->
  Inv ns nc s -> thread_step t s = Some s1 ->
  (if post_event s s1 then 1 else 0) - (if wake_event s s1 then 1 else 0)
  = students_sem s1 - students_sem s /\
  (if post_event s s1 then 1 else 0) - (if admission s s1 then 1 else 0)
  = (main_posted (main_thread s1) - sumZ post_pending (student_threads s1))
    - (main_posted (main_thread s) - sumZ post_pending (student_threads s)).
Proof.
  intros Hsr Hcr HI Hstep. use_inv HI. unfold ta_ok in Hta.
  unfold post_event, wake_event, admission.
  step_cases t s Hstep; simpl; try contradiction;
    try (pose proof (Hst _ _ Hpc) as Hok;
         rewrite !(sumZ_insert _ _ _ _ _ Hpc));
    simpl in *; no_wrap;
    repeat match goal with
           | |- context [Z.ltb ?a ?b] => destruct (Z.ltb_spec a b)
           end; try lia.
  assert (Hi : (Z.to_nat i < length (student_threads s))%nat)
    by (unfold main_ok in Hmain; rewrite Hmpc in Hmain; lia).
  apply lookup_lt_is_Some_2 in Hi as [pc Hpc].
  assert (pc = StNotStarted) as ->.
  { apply (Hcre _ _ Hpc). unfold created. rewrite Hmpc.
    unfold main_ok in Hmain. rewrite Hmpc in Hmain. lia. }
  rewrite !(sumZ_insert _ _ _ _ _ Hpc). simpl. lia.
Qed.

Lemma count_sem ns nc s tr s' :
  0 < ns <= INT_MAX -> 0 <= nc <= INT_MAX ->
  Inv ns nc s -> steps s tr s' ->
  count_steps post_event s tr - count_steps wake_event s tr
  = students_sem s' - students_sem s /\
  count_steps post_event s tr - count_steps admission s tr
  = (main_posted (main_thread s') - sumZ post_pending (student_threads s'))
    - (main_posted (main_thread s) - sumZ post_pending (student_threads s)).
Proof.
  intros Hsr Hcr HI Hrun.
  induction Hrun as [|s t s1 tr s2 Hstep _ IH]; cbn [count_steps]; [lia|].
  specialize (IH (inv_step _ _ Hsr Hcr _ _ _ HI Hstep)).
  pose proof (sem_step _ _ _ _ _ Hsr Hcr HI Hstep). lia.
Qed.

(** ** Wake-ups after the final post *)

Lemma late_wake_step ns nc t s s1 :
  0 < ns <= INT_MAX -> 0 <= nc <= INT_MAX ->
  Inv ns nc s -> thread_step t s = Some s1 ->
  (if late_wake s s1 then 1 else 0) + wakes_left s1 <= wakes_left s.
Proof.
  intros Hsr Hcr HI Hstep. use_inv HI. unfold ta_ok in Hta.
  pose proof (sumZ_bounds post_pending (student_threads s) post_pending_01) as Hp.
  assert (Hgone : main_posted (main_thread s) = 1 ->
            forall k x, student_threads s !! k = Some x -> join_returns x = true).
  { intros Hpost k x Hk. apply (Hjo _ _ Hk). apply lookup_lt_Some in Hk.
    unfold joined. destruct (main_thread s); try discriminate; lia. }
  unfold late_wake, wake_event, wakes_left.
  step_cases t s Hstep; simpl in *;
    repeat match goal with
           | |- context [Z.eqb ?a ?b] => destruct (Z.eqb_spec a b)
           | |- context [Z.ltb ?a ?b] => destruct (Z.ltb_spec a b)
           end; simpl; try lia.
  - (* the final post of [main] *)
    assert (0 <= ta_token (ta s)) by (destruct (ta s); simpl; lia). lia.
  - (* no student is left to post *)
    match goal with
    | Hpost : main_posted _ = 1 |- _ => specialize (Hgone Hpost _ _ Hpc)
    end.
    discriminate.
Qed.

Lemma count_late_wakes ns nc s tr s' :
  0 < ns <= INT_MAX -> 0 <= nc <= INT_MAX ->
  Inv ns nc s -> steps s tr s' ->
  count_steps late_wake s tr + wakes_left s' <= wakes_left s.
Proof.
  intros Hsr Hcr HI Hrun.
  induction Hrun as [|s t s1 tr s2 Hstep _ IH]; cbn [count_steps]; [lia|].
  specialize (IH (inv_step _ _ Hsr Hcr _ _ _ HI Hstep)).
  pose proof (late_wake_step _ _ _ _ _ Hsr Hcr HI Hstep). lia.
Qed.

Lemma wakes_left_nonneg ns nc s : 0 <= nc -> Inv ns nc s -> 0 <= wakes_left s.
Proof.
  intros Hnc HI. pose proof (inv_sem _ _ _ HI). pose proof (inv_chairs _ _ _ HI).
  unfold wakes_left. destruct (main_posted (main_thread s) =? 1); lia.
Qed.

(** ** A run with a failed creation *)

(** The run of two students and one chair in which the second
    [pthread_create] fails. *)
Lemma failed_create_run :
  steps (initial 2 1) failed_create_trace after_failed_create.
Proof.
  unfold failed_create_trace, after_failed_create.
  eapply steps_app; [|apply run_to_end_trace_steps].
  apply schedule_trace_steps. vm_compute. eauto.
Qed.

(** * The claims *)




(** C2.  In every state of every run [0 <= waiting_students <= num_chairs].
    A step that changes [waiting_students] is either the increment of a
    student that holds the mutex and has found [waiting_students <
    num_chairs], or the decrement of the TA that holds the mutex and has
    found [waiting_students > 0]. *)
Theorem waiting_room_bounded ns nc tr s :
  0 < ns <= INT_MAX -> 0 <= nc <= INT_MAX ->
  steps (initial ns nc) tr s ->
  0 <= waiting_students s <= num_chairs s /\ num_chairs s = nc /\
  forall t s', thread_step t s = Some s' ->
    waiting_students s' = waiting_students s \/
    (waiting_students s' = waiting_students s + 1 /\
     waiting_students s < num_chairs s /\ mutex s = Some t /\
     exists k, t = TStudent k) \/
    (waiting_students s' = waiting_students s - 1 /\
     0 < waiting_students s /\ mutex s = Some t /\ t = TTa).
Proof.
  intros Hsr Hcr Hrun.
  pose proof (inv_steps _ _ Hsr Hcr _ _ _ (inv_initial _ _ Hsr Hcr) Hrun) as HI.
  pose proof (inv_waiting _ _ _ HI). pose proof (inv_chairs _ _ _ HI).
  split; [lia|]. split; [assumption|].
  intros t s' Hstep. exact (waiting_step _ _ _ _ _ Hsr Hcr HI Hstep).
Qed.

(** Two students, one chair, the first student seated. *)
Lemma waiting_room_bounded_witness :
  let s0 := initial 2 1 in
  let tr := schedule_trace seated_student s0 in
  let s := after seated_student s0 in
  (0 < 2 <= INT_MAX /\ 0 <= 1 <= INT_MAX /\ steps s0 tr s) /\
  0 <= waiting_students s <= num_chairs s /\ num_chairs s = 1.
Proof.
  intros s0 tr s.
  assert (H1 : 0 < 2 <= INT_MAX) by (unfold INT_MAX; lia).
  assert (H2 : 0 <= 1 <= INT_MAX) by (unfold INT_MAX; lia).
  assert (H3 : steps s0 tr s).
  { apply schedule_trace_steps. vm_compute. eauto. }
  split; [auto|].
  destruct (waiting_room_bounded 2 1 tr s H1 H2 H3) as (Hb & Hc & _).
  auto.
Defined.

(** C3.  The admission protocol of [student_thread].  Every request cycle
    reaches its lock acquisition; there the student is blocked exactly while
    the mutex is held, and once the mutex is free its step takes the mutex:
    afterwards the student is the owner, and it stays the owner at every
    later statement of the protocol.  From a free mutex the protocol answers
    [Granted] with [waiting_students] incremented when [waiting_students <
    num_chairs], and [Rejected] with [waiting_students] unchanged otherwise;
    in both branches the mutex is free again afterwards.  No statement of
    the protocol after the lock acquisition can block, and while the student
    holds the mutex no other thread changes the counters or the mutex. *)
Theorem admission_protocol_correct ns nc tr s k i :
  0 < ns <= INT_MAX -> 0 <= nc <= INT_MAX ->
  steps (initial ns nc) tr s ->
  student_threads s !! k = Some (StLock i) ->
  (forall s0, student_threads s0 !! k = Some (StFor i) ->
     i < HELP_REQUESTS_PER_STUDENT ->
     exists s1, thread_step (TStudent k) s0 = Some s1 /\
                student_threads s1 !! k = Some (StLock i)) /\
  (thread_step (TStudent k) s = None <-> mutex s <> None) /\
  (mutex s = None ->
   exists s1, thread_step (TStudent k) s = Some s1 /\
              mutex s1 = Some (TStudent k) /\
              student_threads s1 !! k = Some (StTest i) /\
              waiting_students s1 = waiting_students s) /\
  (forall tr1 s1 pc, steps (initial ns nc) tr1 s1 ->
     student_threads s1 !! k = Some pc -> in_admission pc = true ->
     (forall j, pc <> StLock j) -> mutex s1 = Some (TStudent k)) /\
  (mutex s = None ->
   exists s',
     try_occupy_seat k s
     = Some (if waiting_students s <? num_chairs s then Granted else Rejected, s') /\
     waiting_students s'
     = (if waiting_students s <? num_chairs s
        then waiting_students s + 1 else waiting_students s) /\
     student_threads s' !! k
     = Some (if waiting_students s <? num_chairs s then StPost i else StFullSleep i) /\
     mutex s' = None /\
     students_finished s' = students_finished s /\ all_done s' = all_done s) /\
  (forall s1 pc, student_threads s1 !! k = Some pc -> in_admission pc = true ->
     (forall j, pc <> StLock j) -> thread_step (TStudent k) s1 <> None) /\
  (forall tr1 s1 t s2, steps (initial ns nc) tr1 s1 ->
     mutex s1 = Some (TStudent k) -> t <> TStudent k ->
     thread_step t s1 = Some s2 ->
     waiting_students s2 = waiting_students s1 /\
     students_finished s2 = students_finished s1 /\
     all_done s2 = all_done s1 /\ mutex s2 = mutex s1).
Proof.
  intros Hsr Hcr Hrun Hk.
  pose proof (steps_inv _ _ _ _ Hsr Hcr Hrun) as HI.
  split; [|split; [|split; [|split; [|split; [|split]]]]].
  - intros s0 Hk0 Hi. simpl. unfold step_student. rewrite Hk0.
    destruct (Z.ltb_spec i HELP_REQUESTS_PER_STUDENT); [|lia].
    eexists. split; [reflexivity|]. simpl.
    apply list_lookup_insert_eq. eapply lookup_lt_Some; eauto.
  - exact (admission_lock_blocks _ _ _ Hk).
  - intros Hm. simpl. unfold step_student, pthread_mutex_lock.
    rewrite Hk, Hm. eexists. split; [reflexivity|]. simpl.
    split; [reflexivity|]. split; [|reflexivity].
    apply list_lookup_insert_eq. eapply lookup_lt_Some; eauto.
  - intros tr1 s1 pc Hrun1 Hk1 Hin Hnl.
    pose proof (steps_inv _ _ _ _ Hsr Hcr Hrun1) as HI1.
    apply (inv_own_student _ _ _ HI1 _ _ Hk1).
    destruct pc; try discriminate; try reflexivity.
    exfalso. eapply Hnl; reflexivity.
  - intros Hm. exact (try_occupy_seat_spec _ _ _ _ _ Hcr HI Hk Hm).
  - intros s1 pc. apply admission_never_blocks.
  - intros tr1 s1 t s2 Hrun1 Hm Hne Hstep.
    pose proof (steps_inv _ _ _ _ Hsr Hcr Hrun1) as HI1.
    exact (others_keep_shared _ _ _ _ _ _ HI1 Hm Hne Hstep).
Qed.

(** One student, one chair, at its first lock acquisition. *)
Lemma admission_protocol_correct_witness :
  let s0 := initial 1 1 in
  let tr := schedule_trace student_at_lock s0 in
  let s := after student_at_lock s0 in
  (0 < 1 <= INT_MAX /\ 0 <= 1 <= INT_MAX /\ steps s0 tr s /\
   student_threads s !! 0%nat = Some (StLock 0)) /\
  (thread_step (TStudent 0) s = None <-> mutex s <> None) /\
  (exists s1, thread_step (TStudent 0) s = Some s1 /\
              mutex s1 = Some (TStudent 0%nat)) /\
  exists s', try_occupy_seat 0 s = Some (Granted, s') /\
             waiting_students s' = 1 /\ mutex s' = None.
Proof.
  intros s0 tr s.
  assert (H1 : 0 < 1 <= INT_MAX) by (unfold INT_MAX; lia).
  assert (H2 : 0 <= 1 <= INT_MAX) by (unfold INT_MAX; lia).
  assert (H3 : steps s0 tr s).
  { apply schedule_trace_steps. vm_compute. eauto. }
  assert (H4 : student_threads s !! 0%nat = Some (StLock 0)) by reflexivity.
  split; [auto|].
  destruct (admission_protocol_correct 1 1 tr s 0%nat 0 H1 H2 H3 H4)
    as (_ & Hblock & Hlock & _ & Hfree & _).
  split; [exact Hblock|]. split.
  - destruct (Hlock eq_refl) as (s1 & Hs1 & Hm & _). exists s1. auto.
  - destruct (Hfree eq_refl) as (s' & Hs' & Hw & _ & Hm & _).
    exists s'. auto.
Defined.


(** C4.  Along every run the increments of [waiting_students] equal the
    decrements plus the chairs in use; an increment is the step of a student
    and a decrement the step of the TA.  Once the TA has left its loop no
    chair is in use, so increments and decrements are equal in number. *)
Theorem seat_conservation ns nc tr s :
  0 < ns <= INT_MAX -> 0 <= nc <= INT_MAX ->
  steps (initial ns nc) tr s ->
  count_steps admission (initial ns nc) tr
  = count_steps release (initial ns nc) tr + waiting_students s /\
  (ta_left_loop (ta s) = true ->
   waiting_students s = 0 /\
   count_steps admission (initial ns nc) tr
   = count_steps release (initial ns nc) tr) /\
  (forall t s', thread_step t s = Some s' ->
     (admission s s' = true -> exists k, t = TStudent k) /\
     (release s s' = true -> t = TTa)).
Proof.
  intros Hsr Hcr Hrun.
  pose proof (inv_initial _ _ Hsr Hcr) as HI0.
  pose proof (inv_steps _ _ Hsr Hcr _ _ _ HI0 Hrun) as HI.
  pose proof (count_waiting _ _ _ _ _ Hsr Hcr HI0 Hrun) as Hcount.
  simpl in Hcount.
  split; [lia|]. split.
  - intros Hleft.
    destruct (exit_after_shutdown _ _ _ HI Hleft) as (_ & Hw & _). lia.
  - intros t s' Hstep.
    pose proof (waiting_step _ _ _ _ _ Hsr Hcr HI Hstep) as Hw.
    unfold admission, release.
    split; intros Hev; apply Z.ltb_lt in Hev;
      destruct Hw as [Hw|[(Hw & _ & _ & Hk)|(Hw & _ & _ & Ht)]];
      try lia; assumption.
Qed.

(** Two students, one chair: one increment, no decrement, one chair in use. *)
Lemma seat_conservation_witness :
  let s0 := initial 2 1 in
  let tr := schedule_trace seated_student s0 in
  let s := after seated_student s0 in
  (0 < 2 <= INT_MAX /\ 0 <= 1 <= INT_MAX /\ steps s0 tr s) /\
  count_steps admission s0 tr = count_steps release s0 tr + waiting_students s.
Proof.
  intros s0 tr s.
  assert (H1 : 0 < 2 <= INT_MAX) by (unfold INT_MAX; lia).
  assert (H2 : 0 <= 1 <= INT_MAX) by (unfold INT_MAX; lia).
  assert (H3 : steps s0 tr s).
  { apply schedule_trace_steps. vm_compute. eauto. }
  split; [auto|].
  exact (proj1 (seat_conservation 2 1 tr s H1 H2 H3)).
Defined.


(** C5.  [all_done] is never reset: a step from a state in which it is set
    leaves it as it is.  Along a run it goes from false to true at most
    once; it has done so once [main] has executed its [all_done = 1], hence
    in every run that has ended.  Every run is finite and can be continued
    until everything has exited, and the run of the scheduler [run_to_end]
    ends with everything exited and [all_done] set exactly once.  The step
    that sets it is [all_done = 1] of a student that has found
    [students_finished == num_students], or [all_done = 1] of [main]. *)
Theorem all_done_monotone_set_once ns nc tr s :
  0 < ns <= INT_MAX -> 0 <= nc <= INT_MAX ->
  steps (initial ns nc) tr s ->
  (forall t s', thread_step t s = Some s' ->
     all_done s <> 0 -> all_done s' = all_done s) /\
  count_steps flag_rises (initial ns nc) tr = all_done s /\
  (all_done s = 0 \/ all_done s = 1) /\
  (main_forced (main_thread s) = true ->
     count_steps flag_rises (initial ns nc) tr = 1) /\
  (finished s -> count_steps flag_rises (initial ns nc) tr = 1) /\
  Z.of_nat (length tr) <= 55 * ns + 17 /\
  (finished s \/ exists t s', thread_step t s = Some s') /\
  finished (run_to_end (Z.to_nat (55 * ns + 17)) (initial ns nc)) /\
  count_steps flag_rises (initial ns nc)
    (run_to_end_trace (Z.to_nat (55 * ns + 17)) (initial ns nc)) = 1 /\
  (forall t s', thread_step t s = Some s' -> flag_rises s s' = true ->
     (exists k, t = TStudent k /\ student_threads s !! k = Some StFinSet /\
                students_finished s = num_students s) \/
     (t = TMain /\ main_thread s = MSetDone)).
Proof.
  intros Hsr Hcr Hrun.
  pose proof (inv_initial _ _ Hsr Hcr) as HI0.
  pose proof (steps_inv _ _ _ _ Hsr Hcr Hrun) as HI.
  pose proof (count_flag _ _ _ _ _ Hsr Hcr HI0 Hrun) as Hcount.
  simpl in Hcount.
  pose proof (inv_flag _ _ _ HI) as Hflag.
  assert (Hend : finished (run_to_end (Z.to_nat (55 * ns + 17)) (initial ns nc))).
  { apply (run_to_end_finished ns nc); auto.
    rewrite measure_initial by lia. lia. }
  split; [|split; [lia|split; [assumption|split; [|split; [|split; [|split;
    [|split; [assumption|split]]]]]]]].
  - intros t s' Hstep Hset. pose proof (flag_step _ _ _ Hstep). lia.
  - intros Hmf. pose proof (inv_forced _ _ _ HI Hmf). lia.
  - intros (Hm & _ & _).
    assert (Hmf : main_forced (main_thread s) = true) by (rewrite Hm; reflexivity).
    pose proof (inv_forced _ _ _ HI Hmf). lia.
  - exact (run_bounded _ _ _ _ Hsr Hcr Hrun).
  - exact (progress _ _ _ Hsr Hcr HI).
  - pose proof (run_to_end_trace_steps (Z.to_nat (55 * ns + 17)) (initial ns nc))
      as Hrun'.
    pose proof (steps_inv _ _ _ _ Hsr Hcr Hrun') as HI'.
    rewrite (count_flag _ _ _ _ _ Hsr Hcr HI0 Hrun'). simpl.
    destruct Hend as (Hm & _ & _).
    assert (Hmf : main_forced
                    (main_thread (run_to_end (Z.to_nat (55 * ns + 17))
                                    (initial ns nc))) = true)
      by (rewrite Hm; reflexivity).
    pose proof (inv_forced _ _ _ HI' Hmf). lia.
  - intros t s' Hstep Hrise. unfold flag_rises in Hrise.
    apply andb_prop in Hrise as [H0 H1].
    apply Z.eqb_eq in H0. apply negb_true_iff, Z.eqb_neq in H1.
    destruct (flag_step _ _ _ Hstep) as [Heq|(_ & [Hmain|(k & -> & Hk)])];
      [congruence|right; assumption|left].
    exists k. repeat split; auto.
    exact (inv_student _ _ _ HI _ _ Hk).
Qed.

(** Two students, one chair, run to the end: [all_done] was set once. *)
Lemma all_done_monotone_set_once_witness :
  let s0 := initial 2 1 in
  let tr := run_to_end_trace 200 s0 in
  let s := run_to_end 200 s0 in
  (0 < 2 <= INT_MAX /\ 0 <= 1 <= INT_MAX /\ steps s0 tr s /\
   main_forced (main_thread s) = true) /\
  count_steps flag_rises s0 tr = 1 /\ all_done s = 1.
Proof.
  intros s0 tr s.
  assert (H1 : 0 < 2 <= INT_MAX) by (unfold INT_MAX; lia).
  assert (H2 : 0 <= 1 <= INT_MAX) by (unfold INT_MAX; lia).
  assert (H3 : steps s0 tr s) by apply run_to_end_trace_steps.
  assert (H4 : main_forced (main_thread s) = true) by (vm_compute; reflexivity).
  split; [auto|].
  destruct (all_done_monotone_set_once 2 1 tr s H1 H2 H3)
    as (_ & Hc & _ & Hset & _).
  split; [exact (Hset H4)|]. rewrite <- Hc. exact (Hset H4).
Defined.


(** C6.  The forced [all_done = 1] of the shutdown handshake is idempotent:
    applied to its own result it changes nothing, and applied after a
    student has already set [all_done] it changes nothing either.  It never
    touches [waiting_students] or [students_finished], and it is what the
    three statements of [main] compute. *)
Theorem force_terminal_idempotent s s1 :
  force_terminal s = Some s1 ->
  force_terminal s1 = Some s1 /\
  (all_done s = 1 -> s1 = s) /\
  waiting_students s1 = waiting_students s /\
  students_finished s1 = students_finished s /\
  all_done s1 = 1 /\
  (main_thread s = MLock ->
   run_schedule [TMain; TMain; TMain] s = Some (set_main MPost s1)).
Proof.
  intros Hf. split; [|split; [|split; [|split; [|split]]]];
    try (intros Hpc; exact (shutdown_is_force_terminal _ _ Hpc Hf));
    unfold force_terminal, pthread_mutex_lock in *;
    destruct s as [ns' nc' w f d m sem mpc tpc l out]; simpl in *;
    destruct m; try discriminate; injection Hf as <-; simpl; auto.
  intros ->. reflexivity.
Qed.

(** Forcing the flag in the initial state, twice. *)
Lemma force_terminal_idempotent_witness :
  let s := initial 1 1 in
  let s1 := set_all_done 1 (initial 1 1) in
  force_terminal s = Some s1 /\
  force_terminal s1 = Some s1 /\ all_done s1 = 1.
Proof.
  intros s s1.
  assert (H : force_terminal s = Some s1) by reflexivity.
  split; [exact H|].
  destruct (force_terminal_idempotent s s1 H) as (Hagain & _ & _ & _ & Hd & _).
  auto.
Defined.


(** C7.  Start-up validation: when the number of students is not positive
    or the number of chairs is negative, [main] prints the error and returns
    1 whatever the allocations would have done, and no thread is created.
    Zero chairs are accepted. *)
Theorem startup_validation in_students in_chairs malloc_ok ta_created :
  (in_students <= 0 \/ in_chairs < 0 ->
   main_start in_students in_chairs malloc_ok ta_created
   = Exit 1 [InvalidInput; PromptChairs; PromptStudents]) /\
  (0 < in_students ->
   main_start in_students 0 true true = Started (initial in_students 0)) /\
  (forall s, main_start in_students in_chairs malloc_ok ta_created = Started s ->
     0 < in_students /\ 0 <= in_chairs /\ s = initial in_students in_chairs).
Proof.
  unfold main_start. split; [|split].
  - intros Hbad.
    destruct (Z.leb_spec in_students 0); destruct (Z.ltb_spec in_chairs 0);
      simpl; auto; lia.
  - intros Hpos. destruct (Z.leb_spec in_students 0); [lia|]. reflexivity.
  - intros s.
    destruct (Z.leb_spec in_students 0); destruct (Z.ltb_spec in_chairs 0);
      simpl; try discriminate.
    destruct malloc_ok, ta_created; simpl; try discriminate.
    intros [= <-]. auto.
Qed.

(** No student is refused; three students and no chair are accepted. *)
Lemma startup_validation_witness :
  (0 <= 0 \/ 5 < 0) /\
  main_start 0 5 true true = Exit 1 [InvalidInput; PromptChairs; PromptStudents] /\
  0 < 3 /\
  main_start 3 0 true true = Started (initial 3 0).
Proof.
  split; [left; lia|]. split.
  - apply (proj1 (startup_validation 0 5 true true)). left. lia.
  - split; [lia|].
    apply (proj1 (proj2 (startup_validation 3 0 true true))). lia.
Defined.


(** C8.  With no chairs: [waiting_students] is 0 in every state and never
    incremented; every evaluation of the admission test takes the rejection
    branch, and the admission protocol answers [Rejected]; until [main] has
    posted the final wake-up the semaphore is 0 and the TA is at or before
    its [sem_wait], so that it has not been woken at all; in the whole run
    the TA is woken at most once, and exactly once when everything has
    exited.  The TA never reaches the serving side of its loop: whenever it
    evaluates its exit test the test succeeds and its step leaves the loop.
    After the final post the TA is never blocked, every run is finite and can
    be continued until everything has exited, and the run of the scheduler
    [run_to_end] ends with everything exited. *)
Theorem no_chairs_all_rejected ns tr s :
  0 < ns <= INT_MAX ->
  steps (initial ns 0) tr s ->
  waiting_students s = 0 /\
  count_steps admission (initial ns 0) tr = 0 /\
  (forall k i, student_threads s !! k = Some (StTest i) ->
     exists s', thread_step (TStudent k) s = Some s' /\
                student_threads s' !! k = Some (StFull i)) /\
  (forall k i, student_threads s !! k = Some (StLock i) -> mutex s = None ->
     exists s', try_occupy_seat k s = Some (Rejected, s') /\
                waiting_students s' = 0) /\
  (main_posted (main_thread s) = 0 ->
     students_sem s = 0 /\ (ta s = TaTop \/ ta s = TaSemWait) /\
     count_steps wake_event (initial ns 0) tr = 0) /\
  count_steps wake_event (initial ns 0) tr = ta_token (ta s) /\
  count_steps wake_event (initial ns 0) tr <= 1 /\
  (finished s -> count_steps wake_event (initial ns 0) tr = 1) /\
  ta_serving (ta s) = false /\
  (ta s = TaCheckExit -> all_done s <> 0 /\ waiting_students s = 0) /\
  (forall s', ta s = TaCheckExit -> thread_step TTa s = Some s' ->
     ta s' = TaGoHome) /\
  (main_posted (main_thread s) = 1 ->
     ta s = TaExited \/ exists s', thread_step TTa s = Some s') /\
  Z.of_nat (length tr) <= 55 * ns + 17 /\
  (finished s \/ exists t s', thread_step t s = Some s') /\
  (stuck s -> finished s) /\
  finished (run_to_end (Z.to_nat (55 * ns + 17)) (initial ns 0)).
Proof.
  intros Hsr Hrun.
  assert (Hcr : 0 <= 0 <= INT_MAX) by (unfold INT_MAX; lia).
  pose proof (inv_initial _ _ Hsr Hcr) as HI0.
  pose proof (steps_inv _ _ _ _ Hsr Hcr Hrun) as HI.
  pose proof (no_service_steps _ _ _ _ Hsr HI0 Hrun eq_refl) as Hno.
  pose proof (inv_waiting _ _ _ HI) as Hw.
  pose proof (inv_chairs _ _ _ HI) as Hc.
  pose proof (sumZ_bounds post_pending (student_threads s) post_pending_01) as Hp.
  pose proof (inv_tokens _ _ _ HI) as Htok.
  pose proof (inv_sem _ _ _ HI) as Hsem.
  pose proof (inv_forced _ _ _ HI) as Hforced.
  destruct (no_chairs_no_moves _ _ _ _ Hsr HI0 Hrun) as [Hadm _].
  destruct (count_sem _ _ _ _ _ Hsr Hcr HI0 Hrun) as [Hs1 Hs2].
  simpl in Hs1, Hs2. rewrite sumZ_replicate in Hs2. simpl in Hs2.
  assert (Hwakes : count_steps wake_event (initial ns 0) tr = ta_token (ta s))
    by lia.
  assert (Htest : ta s = TaCheckExit -> all_done s <> 0 /\ waiting_students s = 0).
  { intros Hpc. rewrite Hpc in Htok. simpl in Htok. split; [|lia].
    destruct (main_thread s); simpl in *; try lia;
      rewrite (Hforced eq_refl); discriminate. }
  assert (Hearly : main_posted (main_thread s) = 0 ->
            students_sem s = 0 /\ (ta s = TaTop \/ ta s = TaSemWait)).
  { intros Hpost. pose proof (inv_ta _ _ _ HI) as Hta. unfold ta_ok in Hta.
    destruct (ta s); simpl in *; try discriminate; try contradiction;
      split; auto; lia. }
  split; [lia|]. split; [assumption|].
  split; [|split; [|split; [|split; [assumption|split; [|split; [|split;
    [assumption|split; [assumption|split; [|split; [|split; [|split;
    [|split]]]]]]]]]]]].
  - intros k i Hk. simpl. unfold step_student. rewrite Hk.
    destruct (Z.ltb_spec (waiting_students s) (num_chairs s)); [lia|].
    eexists. split; [reflexivity|]. simpl.
    apply list_lookup_insert_eq. eapply lookup_lt_Some; eauto.
  - intros k i Hk Hm.
    destruct (try_occupy_seat_spec _ _ _ _ _ Hcr HI Hk Hm) as (s' & Hs' & Hw' & _).
    destruct (Z.ltb_spec (waiting_students s) (num_chairs s)); [lia|].
    exists s'. split; [assumption|lia].
  - intros Hpost. destruct (Hearly Hpost) as (H0 & Hpc).
    split; [assumption|]. split; [assumption|].
    rewrite Hwakes. destruct Hpc as [-> | ->]; reflexivity.
  - rewrite Hwakes. destruct (ta s); simpl; lia.
  - intros (_ & Hta & _). rewrite Hwakes, Hta. reflexivity.
  - intros s' Hpc Hstep. destruct (Htest Hpc) as [Hd Hw0].
    simpl in Hstep. unfold step_ta in Hstep. rewrite Hpc in Hstep.
    destruct (Z.eqb_spec (all_done s) 0); [contradiction|].
    destruct (Z.eqb_spec (waiting_students s) 0); [|contradiction].
    simpl in Hstep. injection Hstep as <-. reflexivity.
  - exact (ta_runs_after_post _ _ _ HI).
  - exact (run_bounded _ _ _ _ Hsr Hcr Hrun).
  - exact (progress _ _ _ Hsr Hcr HI).
  - exact (stuck_finished _ _ _ Hsr Hcr HI).
  - apply (run_to_end_finished ns 0); auto.
    rewrite measure_initial by lia. lia.
Qed.

(** One student, no chair, run to the end: no chair was taken and the TA
    was woken once. *)
Lemma no_chairs_all_rejected_witness :
  let s0 := initial 1 0 in
  let tr := run_to_end_trace 72 s0 in
  let s := run_to_end 72 s0 in
  (0 < 1 <= INT_MAX /\ steps s0 tr s) /\
  waiting_students s = 0 /\
  count_steps admission s0 tr = 0 /\
  count_steps wake_event s0 tr = ta_token (ta s) /\
  ta s = TaExited /\
  finished (run_to_end (Z.to_nat (55 * 1 + 17)) s0).
Proof.
  intros s0 tr s.
  assert (H1 : 0 < 1 <= INT_MAX) by (unfold INT_MAX; lia).
  assert (H3 : steps s0 tr s) by apply run_to_end_trace_steps.
  split; [auto|].
  destruct (no_chairs_all_rejected 1 tr s H1 H3)
    as (Hw & Hadm & _ & _ & _ & Hwk & _ & _ & _ & _ & _ & _ & _ & _ & _ & Hend).
  split; [exact Hw|]. split; [exact Hadm|]. split; [exact Hwk|].
  split; [|exact Hend]. vm_compute. reflexivity.
Defined.


(** C9, as stated, fails twice over.  With one student and one chair the
    student can ask again before the TA has served it, and finds the chair
    taken; and when the student has run to its end before the TA has made a
    step, the TA is woken twice after the final post of [main], once for the
    chair still taken and once more to leave. *)
Lemma single_client_rejected :
  ~ never_rejected 1 1 /\ ~ exits_within_one_wake 1 1.
Proof.
  split.
  - intros Hall.
    assert (Hrun : steps (initial 1 1) (schedule_trace eager_student (initial 1 1))
                     (after eager_student (initial 1 1))).
    { apply schedule_trace_steps. vm_compute. eauto. }
    specialize (Hall _ _ 0%nat 1 Hrun eq_refl).
    vm_compute in Hall. discriminate.
  - intros Hone.
    assert (Hrun : steps (initial 1 1) (schedule_trace late_ta (initial 1 1))
                     (after late_ta (initial 1 1))).
    { apply schedule_trace_steps. vm_compute. eauto. }
    specialize (Hone _ _ Hrun). vm_compute in Hone. apply Hone. reflexivity.
Qed.

(** C9, amended.  With one student and one chair: the first admission
    attempt of the student is granted; a later attempt is granted exactly
    when no chair is in use at that moment and rejected exactly when the one
    chair is in use, both for the admission test and for the protocol as a
    whole; a student that has counted itself finished has made exactly
    [HELP_REQUESTS_PER_STUDENT] attempts; the TA leaves its loop only after
    the final wake-up has been posted, and after that post it is woken at
    most twice and is never blocked; every run is finite, a run that cannot
    be continued has everything exited, and the run of the scheduler
    [run_to_end] ends so. *)
Theorem single_client_admission tr s :
  steps (initial 1 1) tr s ->
  (student_threads s !! 0%nat = Some (StTest 0) ->
     waiting_students s < num_chairs s /\
     exists s', thread_step (TStudent 0) s = Some s' /\
                student_threads s' !! 0%nat = Some (StSit 0)) /\
  (forall i s', student_threads s !! 0%nat = Some (StTest i) ->
     thread_step (TStudent 0) s = Some s' ->
     (student_threads s' !! 0%nat = Some (StSit i) <-> waiting_students s = 0) /\
     (student_threads s' !! 0%nat = Some (StFull i) <-> waiting_students s = 1)) /\
  (forall i, student_threads s !! 0%nat = Some (StLock i) -> mutex s = None ->
     exists s',
       try_occupy_seat 0 s
       = Some (if waiting_students s =? 0 then Granted else Rejected, s')) /\
  (forall pc, student_threads s !! 0%nat = Some pc -> fin_counted pc = 1 ->
     count_steps (attempt_by 0) (initial 1 1) tr = HELP_REQUESTS_PER_STUDENT) /\
  (ta_left_loop (ta s) = true -> main_posted (main_thread s) = 1) /\
  (main_posted (main_thread s) = 1 ->
     students_sem s + ta_token (ta s) = waiting_students s + 1 /\
     students_sem s + ta_token (ta s) <= 2) /\
  count_steps late_wake (initial 1 1) tr <= 2 /\
  (main_posted (main_thread s) = 1 ->
     ta s = TaExited \/ exists s', thread_step TTa s = Some s') /\
  Z.of_nat (length tr) <= 72 /\
  (stuck s -> finished s) /\
  finished (run_to_end 72 (initial 1 1)).
Proof.
  intros Hrun.
  assert (Hsr : 0 < 1 <= INT_MAX) by (unfold INT_MAX; lia).
  assert (Hcr : 0 <= 1 <= INT_MAX) by (unfold INT_MAX; lia).
  pose proof (inv_initial _ _ Hsr Hcr) as HI0.
  pose proof (steps_inv _ _ _ _ Hsr Hcr Hrun) as HI.
  pose proof (inv_waiting _ _ _ HI) as Hw.
  pose proof (inv_chairs _ _ _ HI) as Hc.
  assert (Hstep : forall i s', student_threads s !! 0%nat = Some (StTest i) ->
            thread_step (TStudent 0) s = Some s' ->
            student_threads s' !! 0%nat
            = Some (if waiting_students s =? 0 then StSit i else StFull i)).
  { intros i s' Hk Hs'. simpl in Hs'. unfold step_student in Hs'.
    rewrite Hk in Hs'. pose proof (lookup_lt_Some _ _ _ Hk).
    destruct (Z.ltb_spec (waiting_students s) (num_chairs s));
      destruct (Z.eqb_spec (waiting_students s) 0); try lia;
      injection Hs' as <-; simpl; apply list_lookup_insert_eq; assumption. }
  split; [|split; [|split; [|split; [|split; [|split; [|split; [|split;
    [|split; [|split]]]]]]]]].
  - intros Hk.
    assert (Hb : waiting_students s <= sumZ seats_bound (student_threads s)).
    { apply (seats_steps 1 1 (initial 1 1) tr); auto. simpl. lia. }
    pose proof (inv_slots _ _ _ HI) as Hlen.
    assert (H0 : waiting_students s = 0).
    { destruct (student_threads s) as [|pc [|]]; try discriminate.
      simpl in Hk. injection Hk as ->. simpl in Hb. lia. }
    split; [lia|].
    assert (Hmove : thread_step (TStudent 0) s <> None).
    { apply (admission_never_blocks _ _ _ Hk); [reflexivity|discriminate]. }
    destruct (thread_step (TStudent 0) s) as [s'|] eqn:Hs'; [|congruence].
    exists s'. split; [reflexivity|].
    rewrite (Hstep 0 s' Hk eq_refl), H0. reflexivity.
  - intros i s' Hk Hs'. rewrite (Hstep i s' Hk Hs').
    destruct (Z.eqb_spec (waiting_students s) 0);
      (split; split; intros; try congruence; try lia).
  - intros i Hk Hm.
    destruct (try_occupy_seat_spec _ _ _ _ _ Hcr HI Hk Hm) as (s' & Hs' & _).
    exists s'. rewrite Hs'.
    destruct (Z.ltb_spec (waiting_students s) (num_chairs s));
      destruct (Z.eqb_spec (waiting_students s) 0); try lia; reflexivity.
  - intros pc Hk Hfin.
    rewrite (count_attempts 1 1 0%nat _ _ _ Hsr Hcr HI0 Hrun).
    unfold attempts_of. rewrite Hk. simpl.
    destruct pc; simpl in *; try discriminate; lia.
  - intros Hleft.
    exact (proj1 (exit_after_shutdown _ _ _ HI Hleft)).
  - intros Hpost.
    pose proof (inv_tokens _ _ _ HI) as Htok.
    assert (Hpend : sumZ post_pending (student_threads s) = 0).
    { apply sumZ_zero. intros k x Hk.
      assert (Hg : join_returns x = true).
      { apply (inv_joined _ _ _ HI _ _ Hk).
        apply lookup_lt_Some in Hk. pose proof (inv_slots _ _ _ HI).
        pose proof (inv_students _ _ _ HI).
        unfold joined. destruct (main_thread s); simpl in *; try discriminate; lia. }
      destruct x; try discriminate; reflexivity. }
    lia.
  - pose proof (count_late_wakes _ _ _ _ _ Hsr Hcr HI0 Hrun) as Hlw.
    pose proof (wakes_left_nonneg _ _ _ (proj1 Hcr) HI).
    unfold wakes_left at 2 in Hlw. simpl in Hlw. lia.
  - exact (ta_runs_after_post _ _ _ HI).
  - pose proof (run_bounded _ _ _ _ Hsr Hcr Hrun). lia.
  - exact (stuck_finished _ _ _ Hsr Hcr HI).
  - apply (run_to_end_finished 1 1); auto.
    rewrite measure_initial by lia. lia.
Qed.

(** One student, one chair, at its second admission test with the chair
    still taken: the attempt is rejected. *)
Lemma single_client_admission_witness :
  let s0 := initial 1 1 in
  let tr := schedule_trace eager_student s0 in
  let s := after eager_student s0 in
  steps s0 tr s /\
  (forall s', thread_step (TStudent 0) s = Some s' ->
     (student_threads s' !! 0%nat = Some (StFull 1) <-> waiting_students s = 1)) /\
  count_steps late_wake s0 tr <= 2 /\
  finished (run_to_end 72 s0).
Proof.
  intros s0 tr s.
  assert (H3 : steps s0 tr s).
  { apply schedule_trace_steps. vm_compute. eauto. }
  split; [exact H3|].
  destruct (single_client_admission tr s H3)
    as (_ & Hlater & _ & _ & _ & _ & Hlw & _ & _ & _ & Hend).
  split; [|split; [exact Hlw|exact Hend]].
  intros s' Hs'. exact (proj2 (Hlater 1 s' eq_refl Hs')).
Defined.





(** * Further properties of the protocol *)

(** X1.  Mutual exclusion.  In every state of every run a thread is inside
    a critical section exactly when the mutex records it as owner, so two
    threads are never inside critical sections together; the owner is never
    blocked, and a thread that is blocked or at [sem_post], [sem_wait] or a
    join does not hold the mutex. *)
Theorem mutual_exclusion ns nc tr s t :
  0 < ns <= INT_MAX -> 0 <= nc <= INT_MAX ->
  steps (initial ns nc) tr s ->
  (in_critical t s = true <-> mutex s = Some t) /\
  (forall t', in_critical t s = true -> in_critical t' s = true -> t' = t) /\
  (mutex s = Some t -> exists s', thread_step t s = Some s') /\
  (thread_step t s = None -> mutex s <> Some t).
Proof.
  intros Hsr Hcr Hrun. pose proof (steps_inv _ _ _ _ Hsr Hcr Hrun) as HI.
  assert (Hiff : forall t0, in_critical t0 s = true <-> mutex s = Some t0).
  { intros [| |k|]; simpl.
    - exact (inv_own_main _ _ _ HI).
    - exact (inv_own_ta _ _ _ HI).
    - destruct (student_threads s !! k) as [pc|] eqn:Hk.
      + exact (inv_own_student _ _ _ HI _ _ Hk).
      + split; [discriminate|]. intros Hm.
        apply (inv_own_slot _ _ _ HI) in Hm.
        apply lookup_ge_None in Hk. lia.
    - split; [discriminate|]. intros Hm.
      destruct (inv_own_none _ _ _ HI Hm). }
  assert (Hmove : mutex s = Some t -> exists s', thread_step t s = Some s').
  { intros Hm. apply Hiff in Hm. destruct t as [| |k|]; simpl in *;
      [| | |discriminate].
    - unfold step_main. destruct (main_thread s); try discriminate; eauto.
    - unfold step_ta. destruct (ta s); try discriminate; eauto;
        repeat match goal with |- context [if ?b then _ else _] => destruct b end; eauto.
    - unfold step_student. destruct (student_threads s !! k) as [pc|]; [|discriminate].
      destruct pc; try discriminate; eauto;
        repeat match goal with |- context [if ?b then _ else _] => destruct b end; eauto. }
  split; [apply Hiff|]. split; [|split; [exact Hmove|]].
  - intros t' H1 H2. apply Hiff in H1. apply Hiff in H2. congruence.
  - intros Hnone Hm. destruct (Hmove Hm) as [s' Hs']. congruence.
Qed.

(** Two students, one chair: the seated student owns the mutex. *)
Lemma mutual_exclusion_witness :
  let s0 := initial 2 1 in
  let tr := schedule_trace seated_student s0 in
  let s := after seated_student s0 in
  (0 < 2 <= INT_MAX /\ 0 <= 1 <= INT_MAX /\ steps s0 tr s) /\
  (in_critical (TStudent 0) s = true <-> mutex s = Some (TStudent 0)) /\
  mutex s = Some (TStudent 0).
Proof.
  intros s0 tr s.
  assert (H1 : 0 < 2 <= INT_MAX) by (unfold INT_MAX; lia).
  assert (H2 : 0 <= 1 <= INT_MAX) by (unfold INT_MAX; lia).
  assert (H3 : steps s0 tr s).
  { apply schedule_trace_steps. vm_compute. eauto. }
  split; [auto|].
  destruct (mutual_exclusion 2 1 tr s (TStudent 0) H1 H2 H3) as (Hiff & _).
  split; [exact Hiff|]. apply Hiff. reflexivity.
Defined.

(** X2.  Semaphore accounting.  The value of the semaphore, the event the
    TA has consumed and not yet served, and the posts still owed by seated
    students add up to the chairs in use plus the final wake-up of [main].
    Hence the semaphore stays between 0 and [num_chairs + 1], stays at most
    [waiting_students] until [main] has posted, and is 0 when everything has
    exited. *)
Theorem semaphore_accounting ns nc tr s :
  0 < ns <= INT_MAX -> 0 <= nc <= INT_MAX ->
  steps (initial ns nc) tr s ->
  students_sem s + ta_token (ta s) + sumZ post_pending (student_threads s)
  = waiting_students s + main_posted (main_thread s) /\
  0 <= students_sem s <= num_chairs s + 1 /\
  (main_posted (main_thread s) = 0 -> students_sem s <= waiting_students s) /\
  (finished s -> students_sem s = 0).
Proof.
  intros Hsr Hcr Hrun. pose proof (steps_inv _ _ _ _ Hsr Hcr Hrun) as HI.
  pose proof (inv_tokens _ _ _ HI) as Htok.
  pose proof (inv_sem _ _ _ HI) as Hsem.
  pose proof (inv_waiting _ _ _ HI) as Hw.
  pose proof (inv_chairs _ _ _ HI) as Hc.
  pose proof (sumZ_bounds post_pending (student_threads s) post_pending_01) as Hp.
  assert (0 <= ta_token (ta s) <= 1) by (destruct (ta s); simpl; lia).
  assert (0 <= main_posted (main_thread s) <= 1)
    by (destruct (main_thread s); simpl; lia).
  split; [lia|]. split; [lia|]. split; [lia|].
  intros (Hm & Hta & Hall).
  assert (Hleft : ta_left_loop (ta s) = true) by (rewrite Hta; reflexivity).
  destruct (exit_after_shutdown _ _ _ HI Hleft) as (Hpost & Hw0 & _).
  rewrite (sumZ_zero post_pending) in Htok.
  - rewrite Hta in Htok. simpl in Htok. lia.
  - intros k x Hk. destruct (Hall _ _ Hk) as [-> | ->]; reflexivity.
Qed.

(** Two students, one chair: a chair is taken, its post is still owed. *)
Lemma semaphore_accounting_witness :
  let s0 := initial 2 1 in
  let tr := schedule_trace seated_student s0 in
  let s := after seated_student s0 in
  (0 < 2 <= INT_MAX /\ 0 <= 1 <= INT_MAX /\ steps s0 tr s) /\
  0 <= students_sem s <= num_chairs s + 1 /\
  students_sem s <= waiting_students s.
Proof.
  intros s0 tr s.
  assert (H1 : 0 < 2 <= INT_MAX) by (unfold INT_MAX; lia).
  assert (H2 : 0 <= 1 <= INT_MAX) by (unfold INT_MAX; lia).
  assert (H3 : steps s0 tr s).
  { apply schedule_trace_steps. vm_compute. eauto. }
  split; [auto|].
  destruct (semaphore_accounting 2 1 tr s H1 H2 H3) as (_ & Hb & Hle & _).
  split; [exact Hb|]. apply Hle. reflexivity.
Defined.

(** X3.  The TA is never woken for nothing.  The branch of [ta_thread]
    that finds no student waiting is not reached in any run: whenever the
    TA tests [waiting_students > 0] a student is waiting, and a wake-up
    before the final post of [main] always finds a student waiting. *)
Theorem ta_always_finds_work ns nc tr s :
  0 < ns <= INT_MAX -> 0 <= nc <= INT_MAX ->
  steps (initial ns nc) tr s ->
  ta s <> TaIdle /\ ta s <> TaIdleSleep /\
  (ta s = TaCheckWaiting -> 0 < waiting_students s) /\
  (forall s', ta s = TaSemWait -> thread_step TTa s = Some s' ->
     main_posted (main_thread s) = 0 -> 0 < waiting_students s) /\
  (forall s', ta s = TaCheckWaiting -> thread_step TTa s = Some s' ->
     ta s' = TaHelp).
Proof.
  intros Hsr Hcr Hrun. pose proof (steps_inv _ _ _ _ Hsr Hcr Hrun) as HI.
  use_inv HI.
  pose proof (sumZ_bounds post_pending (student_threads s) post_pending_01) as Hp.
  assert (Hwork : ta s = TaCheckWaiting -> 0 < waiting_students s).
  { intros Hpc. unfold ta_ok in Hta. rewrite Hpc in Hta, Htok. simpl in Htok.
    destruct (main_thread s); simpl in *; try lia;
      specialize (Hforced eq_refl); lia. }
  unfold ta_ok in Hta.
  split; [intros Hpc; rewrite Hpc in Hta; exact Hta|].
  split; [intros Hpc; rewrite Hpc in Hta; exact Hta|].
  split; [exact Hwork|]. split.
  - intros s' Hpc Hstep Hpost. simpl in Hstep. unfold step_ta, sem_wait in Hstep.
    rewrite Hpc in Hstep, Htok. simpl in Htok.
    destruct (Z.ltb_spec 0 (students_sem s)); [lia|discriminate].
  - intros s' Hpc Hstep. specialize (Hwork Hpc).
    simpl in Hstep. unfold step_ta in Hstep. rewrite Hpc in Hstep.
    destruct (Z.ltb_spec 0 (waiting_students s)); [|lia].
    injection Hstep as <-. reflexivity.
Qed.

(** One student, one chair, run to the end: the TA is not idling. *)
Lemma ta_always_finds_work_witness :
  let s0 := initial 1 1 in
  let tr := run_to_end_trace 100 s0 in
  let s := run_to_end 100 s0 in
  (0 < 1 <= INT_MAX /\ 0 <= 1 <= INT_MAX /\ steps s0 tr s) /\
  ta s <> TaIdle /\ ta s <> TaIdleSleep.
Proof.
  intros s0 tr s.
  assert (H1 : 0 < 1 <= INT_MAX) by (unfold INT_MAX; lia).
  assert (H2 : 0 <= 1 <= INT_MAX) by (unfold INT_MAX; lia).
  assert (H3 : steps s0 tr s) by apply run_to_end_trace_steps.
  split; [auto|].
  destruct (ta_always_finds_work 1 1 tr s H1 H2 H3) as (Ha & Hb & _).
  auto.
Defined.

(** X6.  Orderly shutdown.  [main] returns only with status 0, and when it
    has returned the TA has exited and every slot holds an exited thread or
    none, no chair is in use, the semaphore is 0, the mutex is free,
    [all_done] is set, every student thread that was created is counted as
    finished, which makes [num_students] less the failed calls of
    [pthread_create], and no thread can move any more. *)
Theorem clean_exit ns nc tr s st :
  0 < ns <= INT_MAX -> 0 <= nc <= INT_MAX ->
  steps (initial ns nc) tr s ->
  main_thread s = MExited st ->
  st = 0 /\ finished s /\
  waiting_students s = 0 /\ students_sem s = 0 /\ mutex s = None /\
  students_finished s = num_students s - failed_creates s /\
  (failed_creates s = 0 ->
   forall k pc, student_threads s !! k = Some pc -> pc = StExited) /\
  all_done s = 1 /\ stuck s.
Proof.
  intros Hsr Hcr Hrun Hpc. pose proof (steps_inv _ _ _ _ Hsr Hcr Hrun) as HI.
  pose proof (flag_counts _ _ _ (proj1 Hsr) HI) as Hcount.
  pose proof HI as HI'.
  use_inv HI.
  unfold main_ok in Hmain. rewrite Hpc in Hmain. destruct Hmain as [-> Htpc].
  assert (Hall : forall k pc, student_threads s !! k = Some pc ->
                   join_returns pc = true).
  { intros k pc Hk. apply (Hjo _ _ Hk). unfold joined. rewrite Hpc.
    apply lookup_lt_Some in Hk. lia. }
  assert (Hd : all_done s = 1) by (apply Hforced; rewrite Hpc; reflexivity).
  unfold ta_ok in Hta. rewrite Htpc in Hta. destruct Hta as [_ Hw0].
  rewrite Htpc, Hpc in Htok. simpl in Htok.
  rewrite (sumZ_zero post_pending) in Htok
    by (intros k x Hk; specialize (Hall _ _ Hk);
        destruct x; try discriminate; reflexivity).
  split; [reflexivity|]. split.
  { repeat split; auto. intros k pc Hk. apply join_returns_spec. eauto. }
  split; [assumption|]. split; [lia|].
  split; [|split; [auto|split; [|split; [assumption|]]]].
  - destruct (mutex s) as [[| |k|]|] eqn:Hmx; [| | | |reflexivity].
    + pose proof (proj2 Hom eq_refl) as Hh. rewrite Hpc in Hh. discriminate.
    + pose proof (proj2 Hot eq_refl) as Hh. rewrite Htpc in Hh. discriminate.
    + destruct (lookup_lt_is_Some_2 _ _ (Hslot _ eq_refl)) as [pc Hk].
      pose proof (proj2 (Hos _ _ Hk) eq_refl) as Hh.
      specialize (Hall _ _ Hk). destruct pc; discriminate.
    + congruence.
  - intros Hnf k pc Hk.
    destruct (join_returns_spec _ (Hall _ _ Hk)) as [->| ->]; [reflexivity|].
    exfalso.
    assert (Hc : created s = num_students s)
      by (unfold created; rewrite Hpc; reflexivity).
    exact (all_started_without_failure _ _ _ _ _ HI' Hc Hnf Hk eq_refl).
  - intros [| |k|]; simpl.
    + unfold step_main. rewrite Hpc. reflexivity.
    + unfold step_ta. rewrite Htpc. reflexivity.
    + unfold step_student.
      destruct (student_threads s !! k) as [pc|] eqn:Hk; [|reflexivity].
      specialize (Hall _ _ Hk). destruct pc; try discriminate; reflexivity.
    + unfold at_create. rewrite Hpc. reflexivity.
Qed.

(** Two students, one chair, the second [pthread_create] fails. *)
Lemma clean_exit_witness :
  let s0 := initial 2 1 in
  let tr := failed_create_trace in
  let s := after_failed_create in
  (0 < 2 <= INT_MAX /\ 0 <= 1 <= INT_MAX /\ steps s0 tr s /\
   main_thread s = MExited 0) /\
  waiting_students s = 0 /\ students_sem s = 0 /\ mutex s = None /\
  students_finished s = num_students s - failed_creates s /\ all_done s = 1.
Proof.
  intros s0 tr s.
  assert (H1 : 0 < 2 <= INT_MAX) by (unfold INT_MAX; lia).
  assert (H2 : 0 <= 1 <= INT_MAX) by (unfold INT_MAX; lia).
  assert (H3 : steps s0 tr s) by exact failed_create_run.
  assert (H4 : main_thread s = MExited 0) by (vm_compute; reflexivity).
  split; [auto|].
  destruct (clean_exit 2 1 tr s 0 H1 H2 H3 H4)
    as (_ & _ & Hw & Hsem & Hm & Hf & _ & Hd & _).
  auto.
Defined.

(** X7.  No [int] ever overflows.  In every state of every run the shared
    counters lie between 0 and [INT_MAX], the loop counter of [main] lies
    between 0 and [num_students], the loop counter of a student between 0
    and [HELP_REQUESTS_PER_STUDENT], and the identifier of the student in
    slot [k] is [k + 1]; a step adds exactly one to [students_finished] or
    leaves it alone. *)
Theorem counters_in_range ns nc tr s :
  0 < ns <= INT_MAX -> 0 <= nc <= INT_MAX ->
  steps (initial ns nc) tr s ->
  0 <= waiting_students s <= INT_MAX /\
  0 <= students_finished s <= INT_MAX /\
  (forall i, main_thread s = MCreate i \/ main_thread s = MJoin i ->
     0 <= i <= num_students s /\ num_students s <= INT_MAX) /\
  (forall k pc i, student_threads s !! k = Some pc ->
     loop_counter pc = Some i -> 0 <= i <= HELP_REQUESTS_PER_STUDENT) /\
  (forall k pc, student_threads s !! k = Some pc ->
     student_id k = Z.of_nat k + 1 /\ 1 <= student_id k <= num_students s) /\
  (forall t s', thread_step t s = Some s' ->
     students_finished s' = students_finished s \/
     students_finished s' = students_finished s + 1).
Proof.
  intros Hsr Hcr Hrun. pose proof (steps_inv _ _ _ _ Hsr Hcr Hrun) as HI.
  use_inv HI.
  pose proof (sumZ_bounds fin_counted (student_threads s) fin_counted_01) as Hb.
  split; [lia|]. split; [lia|]. split; [|split; [|split]].
  - intros i Hpc. unfold main_ok in Hmain.
    destruct Hpc as [Hpc|Hpc]; rewrite Hpc in Hmain; lia.
  - intros k pc i Hk Hi. specialize (Hst _ _ Hk).
    destruct pc; simpl in *; try discriminate; injection Hi as <-; lia.
  - intros k pc Hk. apply lookup_lt_Some in Hk.
    unfold student_id, int_incr.
    rewrite wrap_int_id by (unfold INT_MAX in *; lia). lia.
  - intros t s' Hstep.
    step_cases t s Hstep; simpl; auto.
    right. pose proof (sumZ_lookup fin_counted _ _ _ fin_counted_01 Hpc) as Hl.
    simpl in Hl. no_wrap. reflexivity.
Qed.

(** Two students, one chair, the first student seated. *)
Lemma counters_in_range_witness :
  let s0 := initial 2 1 in
  let tr := schedule_trace seated_student s0 in
  let s := after seated_student s0 in
  (0 < 2 <= INT_MAX /\ 0 <= 1 <= INT_MAX /\ steps s0 tr s) /\
  0 <= waiting_students s <= INT_MAX /\
  0 <= students_finished s <= INT_MAX.
Proof.
  intros s0 tr s.
  assert (H1 : 0 < 2 <= INT_MAX) by (unfold INT_MAX; lia).
  assert (H2 : 0 <= 1 <= INT_MAX) by (unfold INT_MAX; lia).
  assert (H3 : steps s0 tr s).
  { apply schedule_trace_steps. vm_compute. eauto. }
  split; [auto|].
  destruct (counters_in_range 2 1 tr s H1 H2 H3) as (Hw & Hf & _).
  auto.
Defined.



(** X5.  Every student asks exactly [HELP_REQUESTS_PER_STUDENT] times.
    Along any run the admission tests a student has evaluated number at
    most [HELP_REQUESTS_PER_STUDENT], and exactly that many once it has left
    its request loop, whether the tests took a chair or not. *)
Theorem three_attempts_each ns nc tr s k :
  0 < ns <= INT_MAX -> 0 <= nc <= INT_MAX ->
  steps (initial ns nc) tr s ->
  count_steps (attempt_by k) (initial ns nc) tr = attempts_of k s /\
  0 <= count_steps (attempt_by k) (initial ns nc) tr <= HELP_REQUESTS_PER_STUDENT /\
  (forall pc, student_threads s !! k = Some pc ->
     pc <> StNotStarted -> loop_counter pc = None ->
     count_steps (attempt_by k) (initial ns nc) tr = HELP_REQUESTS_PER_STUDENT).
Proof.
  intros Hsr Hcr Hrun. pose proof (steps_inv _ _ _ _ Hsr Hcr Hrun) as HI.
  pose proof (count_attempts _ _ k _ _ _ Hsr Hcr (inv_initial _ _ Hsr Hcr) Hrun) as Hc.
  assert (H0 : attempts_of k (initial ns nc) = 0).
  { unfold attempts_of, initial. simpl.
    destruct (replicate (Z.to_nat ns) StNotStarted !! k) as [pc|] eqn:Hk;
      [|reflexivity].
    apply lookup_replicate in Hk as [-> _]. reflexivity. }
  rewrite H0 in Hc. split; [lia|]. rewrite Hc. unfold attempts_of. split.
  - destruct (student_threads s !! k) as [pc|] eqn:Hk;
      [|unfold HELP_REQUESTS_PER_STUDENT; lia].
    pose proof (inv_student _ _ _ HI _ _ Hk) as Hok.
    destruct pc; unf; lia.
  - intros pc Hk Hns Hl. rewrite Hk.
    destruct pc; simpl in *; try discriminate; try congruence; reflexivity.
Qed.

(** One student, one chair, run to the end: three admission tests. *)
Lemma three_attempts_each_witness :
  let s0 := initial 1 1 in
  let tr := run_to_end_trace 100 s0 in
  let s := run_to_end 100 s0 in
  (0 < 1 <= INT_MAX /\ 0 <= 1 <= INT_MAX /\ steps s0 tr s) /\
  count_steps (attempt_by 0) s0 tr = HELP_REQUESTS_PER_STUDENT.
Proof.
  intros s0 tr s.
  assert (H1 : 0 < 1 <= INT_MAX) by (unfold INT_MAX; lia).
  assert (H2 : 0 <= 1 <= INT_MAX) by (unfold INT_MAX; lia).
  assert (H3 : steps s0 tr s) by apply run_to_end_trace_steps.
  split; [auto|].
  destruct (three_attempts_each 1 1 tr s 0%nat H1 H2 H3) as (_ & _ & Hall).
  apply (Hall StExited); [reflexivity|discriminate|reflexivity].
Defined.

(** ** Who sets [all_done] *)

Lemma at_final_test_01 x : 0 <= at_final_test x <= 1.
Proof. destruct x; simpl; lia. Qed.

Lemma last_student_step ns nc t s s' :
  0 < ns <= INT_MAX -> 0 <= nc <= INT_MAX ->
  Inv ns nc s -> thread_step t s = Some s' ->
  last_student_pending s -> last_student_pending s'.
Proof.
  intros Hsr Hcr HI Hstep Hp. unfold last_student_pending in *. use_inv HI.
  pose proof (sumZ_bounds at_final_test (student_threads s) at_final_test_01) as Hb.
  step_cases t s Hstep; simpl; auto; try lia;
    try (pose proof (sumZ_lookup fin_counted _ _ _ fin_counted_01 Hpc) as Hl;
         simpl in Hl;
         erewrite sumZ_insert by eassumption; simpl; no_wrap; lia).
  assert (Hi : (Z.to_nat i < length (student_threads s))%nat)
    by (unfold main_ok in Hmain; rewrite Hmpc in Hmain; lia).
  apply lookup_lt_is_Some_2 in Hi as [pc Hpc].
  assert (pc = StNotStarted) as ->.
  { apply (Hcre _ _ Hpc). unfold created. rewrite Hmpc.
    unfold main_ok in Hmain. rewrite Hmpc in Hmain. lia. }
  erewrite sumZ_insert by eassumption. simpl. lia.
Qed.

Lemma last_student_steps ns nc s tr s' :
  0 < ns <= INT_MAX -> 0 <= nc <= INT_MAX ->
  Inv ns nc s -> steps s tr s' ->
  last_student_pending s -> last_student_pending s'.
Proof.
  intros Hsr Hcr HI Hrun.
  induction Hrun as [|s t s1 tr s2 Hstep _ IH]; [auto|].
  intros Hp. apply IH; [exact (inv_step _ _ Hsr Hcr _ _ _ HI Hstep)|].
  eapply last_student_step; eauto.
Qed.

(** X4.  Who sets the flag.  When [main] reaches its [all_done = 1], the
    flag is already set exactly when no [pthread_create] has failed: then
    the last student has set it and the statement of [main] changes
    nothing.  When a call has failed no student ever sets the flag, and the
    statement of [main] is the one that does.  No step of [main] changes
    [waiting_students] or [students_finished]. *)
Theorem main_sets_flag_iff_create_failed ns nc tr s :
  0 < ns <= INT_MAX -> 0 <= nc <= INT_MAX ->
  steps (initial ns nc) tr s ->
  (main_thread s = MSetDone -> (all_done s = 1 <-> failed_creates s = 0)) /\
  (main_thread s = MSetDone -> failed_creates s = 0 -> force_all_done s = s) /\
  (forall s', thread_step TMain s = Some s' ->
     waiting_students s' = waiting_students s /\
     students_finished s' = students_finished s /\
     (all_done s' <> all_done s ->
      main_thread s = MSetDone /\ failed_creates s <> 0 /\ all_done s' = 1)) /\
  (forall t s', thread_step t s = Some s' -> flag_rises s s' = true ->
     (failed_creates s = 0 /\
      exists k, t = TStudent k /\ student_threads s !! k = Some StFinSet) \/
     (failed_creates s <> 0 /\ t = TMain /\ main_thread s = MSetDone)).
Proof.
  intros Hsr Hcr Hrun.
  pose proof (inv_initial _ _ Hsr Hcr) as HI0.
  pose proof (steps_inv _ _ _ _ Hsr Hcr Hrun) as HI.
  pose proof (failed_creates_bounds _ _ _ HI) as Hfb.
  pose proof (inv_slots _ _ _ HI) as Hlen.
  pose proof (inv_students _ _ _ HI) as Hn.
  assert (Hp : last_student_pending s).
  { apply (last_student_steps ns nc (initial ns nc) tr); auto.
    unfold last_student_pending. simpl. lia. }
  assert (Hset : main_thread s = MSetDone ->
            (all_done s = 1 <-> failed_creates s = 0)).
  { intros Hpc. split.
    - intros Hd.
      pose proof (flag_counts _ _ _ (proj1 Hsr) HI Hd) as Hc.
      pose proof (inv_all_done _ _ _ HI Hd) as Hall.
      rewrite Hpc in Hall. specialize (Hall eq_refl). lia.
    - intros Hnf. unfold last_student_pending in Hp.
      assert (Hall : forall k pc, student_threads s !! k = Some pc ->
                       pc = StExited).
      { intros k pc Hk.
        assert (Hg : join_returns pc = true).
        { apply (inv_joined _ _ _ HI _ _ Hk). unfold joined.
          rewrite Hpc. apply lookup_lt_Some in Hk. lia. }
        destruct (join_returns_spec _ Hg) as [->| ->]; [reflexivity|].
        exfalso.
        assert (Hc : created s = num_students s)
          by (unfold created; rewrite Hpc; reflexivity).
        exact (all_started_without_failure _ _ _ _ _ HI Hc Hnf Hk eq_refl). }
      destruct (inv_flag _ _ _ HI) as [Hd|Hd]; [|assumption].
      rewrite (sumZ_zero at_final_test) in Hp
        by (intros k x Hk; rewrite (Hall _ _ Hk); reflexivity).
      assert (students_finished s = num_students s); [|lia].
      rewrite (inv_finished _ _ _ HI), (sumZ_all fin_counted)
        by (intros k x Hk; rewrite (Hall _ _ Hk); reflexivity).
      lia. }
  split; [assumption|]. split; [|split].
  - intros Hpc Hnf. apply (Hset Hpc) in Hnf.
    unfold force_all_done. destruct s; simpl in *. subst. reflexivity.
  - intros s' Hstep. simpl in Hstep. unfold step_main, pthread_mutex_lock in Hstep.
    destruct (main_thread s) eqn:Hmpc; simpl in Hstep; try discriminate;
      try (break_step Hstep; simpl; repeat split; auto; congruence).
    injection Hstep as <-. simpl. split; [reflexivity|]. split; [reflexivity|].
    intros Hf. split; [reflexivity|]. split; [|reflexivity].
    intros H0. destruct (Hset eq_refl) as [_ Hback].
    specialize (Hback H0). congruence.
  - intros t s' Hstep Hrise. unfold flag_rises in Hrise.
    apply andb_prop in Hrise as [H0 H1].
    apply Z.eqb_eq in H0. apply negb_true_iff, Z.eqb_neq in H1.
    destruct (flag_step _ _ _ Hstep) as [Heq|(_ & [[-> Hmain]|(k & -> & Hk)])];
      [congruence| |].
    + right. repeat split; auto. intros Hnf.
      apply (Hset Hmain) in Hnf. lia.
    + left. split; [|eauto].
      pose proof (inv_student _ _ _ HI _ _ Hk) as Heq. simpl in Heq.
      pose proof (inv_failed _ _ _ HI) as Hfail.
      pose proof (inv_finished _ _ _ HI) as Hfin.
      pose proof (created_bounds _ _ _ (proj1 Hsr) HI).
      assert (sumZ fin_counted (student_threads s)
              <= sumZ started (student_threads s)); [|lia].
      clear. induction (student_threads s) as [|a l IH]; simpl; [lia|].
      destruct a; simpl; lia.
Qed.

(** Two students, one chair, the second [pthread_create] fails: when [main]
    is about to execute [all_done = 1] the flag is still clear. *)
Lemma main_sets_flag_iff_create_failed_witness :
  let s0 := initial 2 1 in
  let sched := second_create_fails in
  let s1 := after sched s0 in
  let tr := schedule_trace sched s0 ++ run_to_end_trace 57 s1 in
  let s := run_to_end 57 s1 in
  (0 < 2 <= INT_MAX /\ 0 <= 1 <= INT_MAX /\ steps s0 tr s /\
   main_thread s = MSetDone) /\
  (all_done s = 1 <-> failed_creates s = 0) /\ all_done s = 0.
Proof.
  intros s0 sched s1 tr s.
  assert (H1 : 0 < 2 <= INT_MAX) by (unfold INT_MAX; lia).
  assert (H2 : 0 <= 1 <= INT_MAX) by (unfold INT_MAX; lia).
  assert (H3 : steps s0 tr s).
  { eapply steps_app; [|apply run_to_end_trace_steps].
    apply schedule_trace_steps. vm_compute. eauto. }
  assert (H4 : main_thread s = MSetDone) by (vm_compute; reflexivity).
  split; [auto|].
  split; [exact (proj1 (main_sets_flag_iff_create_failed 2 1 tr s H1 H2 H3) H4)|].
  vm_compute. reflexivity.
Defined.

(** ** The narration *)

Lemma lines_step ns nc t s s' :
  0 < ns <= INT_MAX -> 0 <= nc <= INT_MAX ->
  Inv ns nc s -> thread_step t s = Some s' ->
  Forall (line_ok ns nc) (stdout s) -> Forall (line_ok ns nc) (stdout s').
Proof.
  intros Hsr Hcr HI Hstep Hall. use_inv HI.
  assert (Hid : forall k pc, student_threads s !! k = Some pc ->
                  1 <= student_id k <= ns).
  { intros k pc Hk. apply lookup_lt_Some in Hk. unfold student_id, int_incr.
    rewrite wrap_int_id by (unfold INT_MAX in *; lia). lia. }
  unfold ta_ok, main_ok in *.
  step_cases t s Hstep; simpl; auto; try contradiction;
    constructor; auto; simpl; try exact I;
    try (pose proof (Hid _ _ Hpc); pose proof (Hst _ _ Hpc) as Hok;
         pose proof (sumZ_lookup fin_counted _ _ _ fin_counted_01 Hpc) as Hl;
         simpl in *; no_wrap; lia);
    no_wrap; lia.
Qed.

Lemma lines_steps ns nc s tr s' :
  0 < ns <= INT_MAX -> 0 <= nc <= INT_MAX ->
  Inv ns nc s -> steps s tr s' ->
  Forall (line_ok ns nc) (stdout s) -> Forall (line_ok ns nc) (stdout s').
Proof.
  intros Hsr Hcr HI Hrun.
  induction Hrun as [|s t s1 tr s2 Hstep _ IH]; [auto|].
  intros Hp. apply IH; [exact (inv_step _ _ Hsr Hcr _ _ _ HI Hstep)|].
  eapply lines_step; eauto.
Qed.

Lemma error_lines_step ns nc t s s' :
  0 < ns <= INT_MAX -> 0 <= nc <= INT_MAX ->
  Inv ns nc s -> thread_step t s = Some s' ->
  error_lines_ok s -> error_lines_ok s'.
Proof.
  intros Hsr Hcr HI Hstep Hp. use_inv HI.
  unfold error_lines_ok, created, main_ok in *.
  step_cases t s Hstep; simpl in *; intros id Hin;
    try (destruct Hin as [Heq|Hin]; [discriminate Heq|]);
    try (destruct (Hp id Hin) as [Hr Hk];
         first [ rewrite list_lookup_insert_ne
                   by (intros Heq; rewrite <- Heq in Hk; congruence)
               | rewrite list_lookup_insert_ne by lia
               | idtac ];
         no_wrap; split; [lia|assumption]).
  (* the call for slot [i] fails *)
  destruct Hin as [[= <-]|Hin].
  - no_wrap.
    assert (Hi : (Z.to_nat i < length (student_threads s))%nat) by lia.
    destruct (lookup_lt_is_Some_2 _ _ Hi) as [pc Hk].
    assert (pc = StNotStarted) as -> by (apply (Hcre _ _ Hk); lia).
    replace (i + 1 - 1) with i by lia. split; [lia|assumption].
  - destruct (Hp id Hin) as [Hr Hk]. no_wrap. split; [lia|assumption].
Qed.

Lemma error_lines_steps ns nc s tr s' :
  0 < ns <= INT_MAX -> 0 <= nc <= INT_MAX ->
  Inv ns nc s -> steps s tr s' ->
  error_lines_ok s -> error_lines_ok s'.
Proof.
  intros Hsr Hcr HI Hrun.
  induction Hrun as [|s t s1 tr s2 Hstep _ IH]; [auto|].
  intros Hp. apply IH; [exact (inv_step _ _ Hsr Hcr _ _ _ HI Hstep)|].
  eapply error_lines_step; eauto.
Qed.

(** X8.  What the narration can say.  Every line printed in a run carries
    values in range: student identifiers between 1 and [num_students], a
    waiting count between 1 and [num_chairs] after sitting down and between
    0 and [num_chairs - 1] after the TA took a student, a finished count
    between 1 and [num_students].  The error lines of the start-up and the
    line of the TA that finds nobody waiting are never printed in a run.
    The error line about a student thread is printed only for a slot that
    [main] has passed and that holds no thread, and a student whose creation
    failed never prints a line. *)
Theorem narration_in_range ns nc tr s :
  0 < ns <= INT_MAX -> 0 <= nc <= INT_MAX ->
  steps (initial ns nc) tr s ->
  Forall (line_ok (num_students s) (num_chairs s)) (stdout s) /\
  ~ In TaNoStudents (stdout s) /\
  ~ In InvalidInput (stdout s) /\ ~ In AllocError (stdout s) /\
  ~ In TaCreateError (stdout s) /\
  (forall id w, In (StSitting id w) (stdout s) ->
     1 <= id <= ns /\ 1 <= w <= nc) /\
  (forall w, In (TaHelping w) (stdout s) -> 0 <= w < nc) /\
  (forall id f, In (StDoneForDay id f) (stdout s) ->
     1 <= id <= ns /\ 1 <= f <= ns) /\
  (forall id, In (StudentCreateError id) (stdout s) ->
     1 <= id <= created s /\
     student_threads s !! Z.to_nat (id - 1) = Some StNotStarted /\
     thread_step (TStudent (Z.to_nat (id - 1))) s = None).
Proof.
  intros Hsr Hcr Hrun.
  pose proof (inv_initial _ _ Hsr Hcr) as HI0.
  pose proof (steps_inv _ _ _ _ Hsr Hcr Hrun) as HI.
  assert (Hall : Forall (line_ok ns nc) (stdout s)).
  { apply (lines_steps ns nc (initial ns nc) tr); auto.
    simpl. repeat constructor. }
  assert (Herr : error_lines_ok s).
  { apply (error_lines_steps ns nc (initial ns nc) tr); auto.
    intros id Hin. simpl in Hin. destruct Hin as [[=]|[[=]|[]]]. }
  rewrite (inv_students _ _ _ HI), (inv_chairs _ _ _ HI).
  split; [assumption|].
  assert (Hin : forall x, In x (stdout s) -> line_ok ns nc x).
  { intros x Hx. rewrite Forall_forall in Hall. apply Hall.
    apply list_elem_of_In. exact Hx. }
  clear Hall. rename Hin into Hall.
  split; [|split; [|split; [|split; [|split; [|split; [|split]]]]]].
  - intros Hin. exact (Hall _ Hin).
  - intros Hin. exact (Hall _ Hin).
  - intros Hin. exact (Hall _ Hin).
  - intros Hin. exact (Hall _ Hin).
  - intros id w Hin. exact (Hall _ Hin).
  - intros w Hin. exact (Hall _ Hin).
  - intros id f Hin. exact (Hall _ Hin).
  - intros id Hin. destruct (Herr id Hin) as [Hr Hk].
    split; [assumption|]. split; [assumption|].
    simpl. unfold step_student. rewrite Hk. reflexivity.
Qed.

(** Two students, one chair, the second [pthread_create] fails. *)
Lemma narration_in_range_witness :
  let s0 := initial 2 1 in
  let tr := failed_create_trace in
  let s := after_failed_create in
  (0 < 2 <= INT_MAX /\ 0 <= 1 <= INT_MAX /\ steps s0 tr s) /\
  ~ In TaNoStudents (stdout s) /\
  In (StudentCreateError 2) (stdout s) /\
  student_threads s !! Z.to_nat (2 - 1) = Some StNotStarted.
Proof.
  intros s0 tr s.
  assert (H1 : 0 < 2 <= INT_MAX) by (unfold INT_MAX; lia).
  assert (H2 : 0 <= 1 <= INT_MAX) by (unfold INT_MAX; lia).
  assert (H3 : steps s0 tr s) by exact failed_create_run.
  assert (H4 : In (StudentCreateError 2) (stdout s)).
  { vm_compute. do 15 right. left. reflexivity. }
  split; [auto|].
  destruct (narration_in_range 2 1 tr s H1 H2 H3)
    as (_ & Hno & _ & _ & _ & _ & _ & _ & Herr).
  split; [exact Hno|]. split; [exact H4|].
  exact (proj1 (proj2 (Herr 2 H4))).
Defined.

Lemma sumZ_const f c l :
  (forall k x, l !! k = Some x -> f x = c) ->
  sumZ f l = c * Z.of_nat (length l).
Proof.
  induction l as [|a l IH]; intros H; simpl sumZ; simpl length; [lia|].
  rewrite (H 0%nat a eq_refl), IH; [lia|].
  intros k x Hk. apply (H (S k) x Hk).
Qed.

Lemma sumZ_upper f c l :
  (forall k x, l !! k = Some x -> f x <= c) ->
  sumZ f l <= c * Z.of_nat (length l).
Proof.
  induction l as [|a l IH]; intros H; simpl sumZ; simpl length; [lia|].
  pose proof (H 0%nat a eq_refl).
  assert (sumZ f l <= c * Z.of_nat (length l))
    by (apply IH; intros k x Hk; apply (H (S k) x Hk)).
  lia.
Qed.

Lemma narration_step ns nc t s s' :
  0 < ns <= INT_MAX -> 0 <= nc <= INT_MAX ->
  Inv ns nc s -> thread_step t s = Some s' ->
  narration_agrees s -> narration_agrees s'.
Proof.
  intros Hsr Hcr HI Hstep Hag. use_inv HI.
  unfold narration_agrees, ta_ok in *.
  destruct Hag as (A1 & A2 & A3 & A4 & A5 & A6).
  step_cases t s Hstep; simpl; try contradiction;
    try (pose proof (Hst _ _ Hpc) as Hok;
         pose proof (sumZ_lookup fin_counted _ _ _ fin_counted_01 Hpc) as Hl;
         rewrite !(sumZ_insert _ _ _ _ _ Hpc));
    simpl in *; unfold HELP_REQUESTS_PER_STUDENT in *; no_wrap;
    try rewrite Htpc; simpl;
    try (repeat split; lia).
  - assert (Hi : (Z.to_nat i < length (student_threads s))%nat)
      by (unfold main_ok in Hmain; rewrite Hmpc in Hmain; lia).
    apply lookup_lt_is_Some_2 in Hi as [pc Hpc].
    assert (pc = StNotStarted) as ->.
    { apply (Hcre _ _ Hpc). unfold created. rewrite Hmpc.
      unfold main_ok in Hmain. rewrite Hmpc in Hmain. lia. }
    rewrite !(sumZ_insert _ _ _ _ _ Hpc). simpl. repeat split; lia.
  - (* the idle branch of the TA cannot be taken *)
    exfalso.
    pose proof (sumZ_bounds post_pending (student_threads s) post_pending_01).
    destruct (main_thread s); simpl in *; try lia;
      specialize (Hforced eq_refl); lia.
Qed.

Lemma narration_steps ns nc s tr s' :
  0 < ns <= INT_MAX -> 0 <= nc <= INT_MAX ->
  Inv ns nc s -> steps s tr s' ->
  narration_agrees s -> narration_agrees s'.
Proof.
  intros Hsr Hcr HI Hrun.
  induction Hrun as [|s t s1 tr s2 Hstep _ IH]; [auto|].
  intros Hp. apply IH; [exact (inv_step _ _ Hsr Hcr _ _ _ HI Hstep)|].
  eapply narration_step; eauto.
Qed.

Lemma sumZ_scale f g c l :
  (forall k x, l !! k = Some x -> f x = c * g x) -> sumZ f l = c * sumZ g l.
Proof.
  induction l as [|a l IH]; intros H; simpl sumZ; [lia|].
  rewrite (H 0%nat a eq_refl), IH; [lia|].
  intros k x Hk. apply (H (S k) x Hk).
Qed.

Lemma sumZ_scale_le f g c l :
  (forall k x, l !! k = Some x -> f x <= c * g x) -> sumZ f l <= c * sumZ g l.
Proof.
  induction l as [|a l IH]; intros H; simpl sumZ; [lia|].
  pose proof (H 0%nat a eq_refl).
  assert (sumZ f l <= c * sumZ g l)
    by (apply IH; intros k x Hk; apply (H (S k) x Hk)).
  lia.
Qed.

(** X9.  The narration agrees with the counters.  At every moment the
    sitting lines outnumber the helping lines by [waiting_students], the done
    lines number [students_finished], and there are at most
    [HELP_REQUESTS_PER_STUDENT] answers (sitting or hallway full) per student
    thread started.  When everything has exited each student that was
    created has printed [HELP_REQUESTS_PER_STUDENT] programming lines and as
    many answers and one done line, the others have printed nothing and
    [main] has printed one error line for each of them; every sitting line
    has its helping line, and the TA has announced sleep once more than it
    has helped and gone home once. *)
Theorem narration_counts ns nc tr s :
  0 < ns <= INT_MAX -> 0 <= nc <= INT_MAX ->
  steps (initial ns nc) tr s ->
  narration_agrees s /\
  count_lines is_sitting (stdout s) + count_lines is_full (stdout s)
  <= HELP_REQUESTS_PER_STUDENT * (created s - failed_creates s) /\
  (finished s ->
   count_lines is_programming (stdout s)
   = HELP_REQUESTS_PER_STUDENT * (ns - failed_creates s) /\
   count_lines is_sitting (stdout s) + count_lines is_full (stdout s)
   = HELP_REQUESTS_PER_STUDENT * (ns - failed_creates s) /\
   count_lines is_done (stdout s) = ns - failed_creates s /\
   count_lines is_helping (stdout s) = count_lines is_sitting (stdout s) /\
   count_lines is_sleeping (stdout s) = count_lines is_sitting (stdout s) + 1 /\
   count_lines is_going_home (stdout s) = 1).
Proof.
  intros Hsr Hcr Hrun.
  pose proof (inv_initial _ _ Hsr Hcr) as HI0.
  pose proof (steps_inv _ _ _ _ Hsr Hcr Hrun) as HI.
  assert (Hag : narration_agrees s).
  { apply (narration_steps ns nc (initial ns nc) tr); auto.
    unfold narration_agrees. simpl. rewrite !sumZ_replicate. simpl.
    repeat split; lia. }
  pose proof (inv_slots _ _ _ HI) as Hlen.
  pose proof (inv_failed _ _ _ HI) as Hfail.
  pose proof (inv_students _ _ _ HI) as Hn.
  split; [assumption|].
  destruct Hag as (A1 & A2 & A3 & A4 & A5 & A6). split.
  - rewrite A5.
    assert (sumZ answered (student_threads s)
            <= HELP_REQUESTS_PER_STUDENT * sumZ started (student_threads s)).
    { apply sumZ_scale_le. intros k x Hk.
      pose proof (inv_student _ _ _ HI _ _ Hk).
      destruct x; unf; lia. }
    lia.
  - intros (Hm & Hta & Hall).
    assert (Hleft : ta_left_loop (ta s) = true) by (rewrite Hta; reflexivity).
    destruct (exit_after_shutdown _ _ _ HI Hleft) as (_ & Hw0 & Hd & _).
    rewrite Hta in A3, A6. simpl in A3, A6.
    rewrite (sumZ_scale programmed started HELP_REQUESTS_PER_STUDENT) in A4
      by (intros k x Hk; destruct (Hall _ _ Hk) as [-> | ->]; reflexivity).
    rewrite (sumZ_scale answered started HELP_REQUESTS_PER_STUDENT) in A5
      by (intros k x Hk; destruct (Hall _ _ Hk) as [-> | ->]; reflexivity).
    pose proof (flag_counts _ _ _ (proj1 Hsr) HI Hd) as Hcount.
    assert (Hc : created s = ns).
    { unfold created. rewrite Hm. assumption. }
    unfold HELP_REQUESTS_PER_STUDENT in *.
    repeat split; lia.
Qed.

(** Two students, one chair, the second [pthread_create] fails: three
    programming lines, one done line, one error line. *)
Lemma narration_counts_witness :
  let s0 := initial 2 1 in
  let tr := failed_create_trace in
  let s := after_failed_create in
  (0 < 2 <= INT_MAX /\ 0 <= 1 <= INT_MAX /\ steps s0 tr s /\ finished s) /\
  count_lines is_programming (stdout s)
  = HELP_REQUESTS_PER_STUDENT * (2 - failed_creates s) /\
  count_lines is_done (stdout s) = 2 - failed_creates s /\
  count_lines is_going_home (stdout s) = 1 /\
  failed_creates s = 1.
Proof.
  intros s0 tr s.
  assert (H1 : 0 < 2 <= INT_MAX) by (unfold INT_MAX; lia).
  assert (H2 : 0 <= 1 <= INT_MAX) by (unfold INT_MAX; lia).
  assert (H3 : steps s0 tr s) by exact failed_create_run.
  assert (H4 : finished s).
  { split; [vm_compute; reflexivity|]. split; [vm_compute; reflexivity|].
    intros [|[|k]] pc Hk; vm_compute in Hk; [left|right|]; congruence. }
  split; [auto|].
  destruct (narration_counts 2 1 tr s H1 H2 H3) as (_ & _ & Hend).
  destruct (Hend H4) as (Hp & _ & Hd & _ & _ & Hg).
  split; [exact Hp|]. split; [exact Hd|]. split; [exact Hg|].
  vm_compute. reflexivity.
Defined.

(** ** The finished counts in the narration *)

Lemma done_counts_step ns nc t s s' :
  0 < ns <= INT_MAX -> 0 <= nc <= INT_MAX ->
  Inv ns nc s -> thread_step t s = Some s' ->
  done_counts (stdout s) = count_down (Z.to_nat (students_finished s)) ->
  done_counts (stdout s') = count_down (Z.to_nat (students_finished s')).
Proof.
  intros Hsr Hcr HI Hstep Hd. use_inv HI.
  pose proof (sumZ_bounds fin_counted (student_threads s) fin_counted_01) as Hb.
  step_cases t s Hstep; simpl; auto.
  pose proof (sumZ_lookup fin_counted _ _ _ fin_counted_01 Hpc) as Hl.
  simpl in Hl. no_wrap. rewrite Hd.
  replace (Z.to_nat (students_finished s + 1))
    with (S (Z.to_nat (students_finished s))) by lia.
  cbn [count_down]. f_equal. lia.
Qed.

(** X10.  The done lines count up.  Read in the order printed, the
    finished counts of the done lines are 1, 2, ..., [students_finished]:
    each student prints the count it has just produced, no count is printed
    twice or skipped.  When everything has exited they end with the number
    of student threads that were created, [num_students] less the failed
    calls of [pthread_create]. *)
Theorem done_lines_count_up ns nc tr s :
  0 < ns <= INT_MAX -> 0 <= nc <= INT_MAX ->
  steps (initial ns nc) tr s ->
  done_counts (stdout s) = count_down (Z.to_nat (students_finished s)) /\
  (finished s ->
   done_counts (stdout s) = count_down (Z.to_nat (ns - failed_creates s))) /\
  (finished s -> failed_creates s = 0 ->
   done_counts (stdout s) = count_down (Z.to_nat ns)).
Proof.
  intros Hsr Hcr Hrun.
  pose proof (steps_inv _ _ _ _ Hsr Hcr Hrun) as HI.
  assert (Hd : forall s0 tr0 s1, Inv ns nc s0 -> steps s0 tr0 s1 ->
            done_counts (stdout s0) = count_down (Z.to_nat (students_finished s0)) ->
            done_counts (stdout s1) = count_down (Z.to_nat (students_finished s1))).
  { intros s0 tr0 s1 HI0 Hrun0.
    induction Hrun0 as [|s0 t s1 tr0 s2 Hstep _ IH]; [auto|].
    intros Hp. apply IH; [exact (inv_step _ _ Hsr Hcr _ _ _ HI0 Hstep)|].
    eapply done_counts_step; eauto. }
  specialize (Hd _ _ _ (inv_initial _ _ Hsr Hcr) Hrun eq_refl).
  assert (Hend : finished s ->
            students_finished s = ns - failed_creates s).
  { intros (_ & Hta & _).
    assert (Hleft : ta_left_loop (ta s) = true) by (rewrite Hta; reflexivity).
    destruct (exit_after_shutdown _ _ _ HI Hleft) as (_ & _ & Hflag & _).
    rewrite (flag_counts _ _ _ (proj1 Hsr) HI Hflag), (inv_students _ _ _ HI).
    reflexivity. }
  split; [assumption|]. split.
  - intros Hf. rewrite Hd, (Hend Hf). reflexivity.
  - intros Hf Hnf. rewrite Hd, (Hend Hf), Hnf. f_equal. lia.
Qed.

(** Two students, one chair, the second [pthread_create] fails: the only
    count printed is 1. *)
Lemma done_lines_count_up_witness :
  let s0 := initial 2 1 in
  let tr := failed_create_trace in
  let s := after_failed_create in
  (0 < 2 <= INT_MAX /\ 0 <= 1 <= INT_MAX /\ steps s0 tr s /\ finished s) /\
  done_counts (stdout s) = count_down (Z.to_nat (2 - failed_creates s)) /\
  done_counts (stdout s) = [1].
Proof.
  intros s0 tr s.
  assert (H1 : 0 < 2 <= INT_MAX) by (unfold INT_MAX; lia).
  assert (H2 : 0 <= 1 <= INT_MAX) by (unfold INT_MAX; lia).
  assert (H3 : steps s0 tr s) by exact failed_create_run.
  assert (H4 : finished s).
  { split; [vm_compute; reflexivity|]. split; [vm_compute; reflexivity|].
    intros [|[|k]] pc Hk; vm_compute in Hk; [left|right|]; congruence. }
  split; [auto|].
  destruct (done_lines_count_up 2 1 tr s H1 H2 H3) as (_ & Hd & _).
  split; [exact (Hd H4)|]. rewrite (Hd H4). vm_compute. reflexivity.
Defined.

(** ** The rejection branch *)

Lemma full_step ns nc t s s' :
  0 < ns <= INT_MAX -> 0 <= nc <= INT_MAX ->
  Inv ns nc s -> thread_step t s = Some s' ->
  full_when_rejected s -> full_when_rejected s'.
Proof.
  intros Hsr Hcr HI Hstep Hp. unfold full_when_rejected in *. use_inv HI.
  intros k i Hk.
  step_cases t s Hstep; simpl in *;
    try (apply list_lookup_insert_Some in Hk as [(? & ? & ?)|(? & Hk)];
         try discriminate);
    try exact (Hp _ _ Hk);
    try (simplify_eq; lia).
  - (* the TA cannot serve while a student is in the rejection branch *)
    pose proof (proj1 Hot eq_refl).
    pose proof (proj1 (Hos _ _ Hk) eq_refl). congruence.
  - (* nor can another student sit down *)
    pose proof (proj1 (Hos _ _ Hpc) eq_refl).
    pose proof (proj1 (Hos _ _ Hk) eq_refl). congruence.
Qed.

(** X11.  Rejected means full.  A student is in the rejection branch of
    [student_thread] only while [waiting_students == num_chairs], as the
    comment on that branch says; and a student is about to sit down only
    while [waiting_students < num_chairs]. *)
Theorem rejected_means_full ns nc tr s k i :
  0 < ns <= INT_MAX -> 0 <= nc <= INT_MAX ->
  steps (initial ns nc) tr s ->
  (student_threads s !! k = Some (StFull i) ->
     waiting_students s = num_chairs s) /\
  (student_threads s !! k = Some (StSit i) ->
     waiting_students s < num_chairs s) /\
  (forall s', student_threads s !! k = Some (StTest i) ->
     thread_step (TStudent k) s = Some s' ->
     (student_threads s' !! k = Some (StFull i) <->
      waiting_students s = num_chairs s)).
Proof.
  intros Hsr Hcr Hrun.
  pose proof (steps_inv _ _ _ _ Hsr Hcr Hrun) as HI.
  assert (Hf : forall s0 tr0 s1, Inv ns nc s0 -> steps s0 tr0 s1 ->
            full_when_rejected s0 -> full_when_rejected s1).
  { intros s0 tr0 s1 HI0 Hrun0.
    induction Hrun0 as [|s0 t s1 tr0 s2 Hstep _ IH]; [auto|].
    intros Hp. apply IH; [exact (inv_step _ _ Hsr Hcr _ _ _ HI0 Hstep)|].
    eapply full_step; eauto. }
  assert (Hp : full_when_rejected s).
  { apply (Hf _ _ _ (inv_initial _ _ Hsr Hcr) Hrun).
    intros k0 i0 Hk0. simpl in Hk0.
    apply lookup_replicate in Hk0 as [[=] _]. }
  split; [exact (Hp k i)|]. split.
  - intros Hk. exact (proj2 (inv_student _ _ _ HI _ _ Hk)).
  - intros s' Hk Hstep. simpl in Hstep. unfold step_student in Hstep.
    rewrite Hk in Hstep.
    pose proof (inv_waiting _ _ _ HI). pose proof (inv_chairs _ _ _ HI).
    pose proof (lookup_lt_Some _ _ _ Hk).
    destruct (Z.ltb_spec (waiting_students s) (num_chairs s));
      injection Hstep as <-; simpl;
      rewrite list_lookup_insert_eq by assumption;
      split; intros; try congruence; try lia.
Qed.

(** One student, one chair: the chair is taken and the student finds the
    hallway full in its second cycle. *)
Lemma rejected_means_full_witness :
  let s0 := initial 1 1 in
  let sched := eager_student ++ [TStudent 0] in
  let tr := schedule_trace sched s0 in
  let s := after sched s0 in
  (0 < 1 <= INT_MAX /\ 0 <= 1 <= INT_MAX /\ steps s0 tr s /\
   student_threads s !! 0%nat = Some (StFull 1)) /\
  waiting_students s = num_chairs s.
Proof.
  intros s0 sched tr s.
  assert (H1 : 0 < 1 <= INT_MAX) by (unfold INT_MAX; lia).
  assert (H2 : 0 <= 1 <= INT_MAX) by (unfold INT_MAX; lia).
  assert (H3 : steps s0 tr s).
  { apply schedule_trace_steps. vm_compute. eauto. }
  assert (H4 : student_threads s !! 0%nat = Some (StFull 1)) by reflexivity.
  split; [auto|].
  exact (proj1 (rejected_means_full 1 1 tr s 0%nat 1 H1 H2 H3) H4).
Defined.

(** X14.  One wake-up per chair taken, plus one.  Along every run the
    posts on the semaphore are the wake-ups of the TA plus the value of the
    semaphore, and they are the chairs taken, less the posts seated students
    still owe, plus the final post of [main].  When everything has exited
    the TA has been woken exactly once per chair taken and once more by
    [main]. *)
Theorem wakes_match_posts ns nc tr s :
  0 < ns <= INT_MAX -> 0 <= nc <= INT_MAX ->
  steps (initial ns nc) tr s ->
  count_steps post_event (initial ns nc) tr
  = count_steps wake_event (initial ns nc) tr + students_sem s /\
  count_steps post_event (initial ns nc) tr
  = count_steps admission (initial ns nc) tr
    - sumZ post_pending (student_threads s) + main_posted (main_thread s) /\
  (finished s ->
   count_steps wake_event (initial ns nc) tr
   = count_steps admission (initial ns nc) tr + 1).
Proof.
  intros Hsr Hcr Hrun.
  pose proof (inv_initial _ _ Hsr Hcr) as HI0.
  pose proof (steps_inv _ _ _ _ Hsr Hcr Hrun) as HI.
  destruct (count_sem _ _ _ _ _ Hsr Hcr HI0 Hrun) as [H1 H2].
  simpl in H1, H2. rewrite sumZ_replicate in H2. simpl in H2.
  split; [lia|]. split; [lia|].
  intros (Hm & Hta & Hall).
  rewrite (sumZ_zero post_pending) in H2
    by (intros k x Hk; destruct (Hall _ _ Hk) as [-> | ->]; reflexivity).
  rewrite Hm in H2. simpl in H2.
  pose proof (inv_tokens _ _ _ HI) as Htok.
  rewrite Hm, Hta, (sumZ_zero post_pending) in Htok
    by (intros k x Hk; destruct (Hall _ _ Hk) as [-> | ->]; reflexivity).
  simpl in Htok.
  assert (Hleft : ta_left_loop (ta s) = true) by (rewrite Hta; reflexivity).
  destruct (exit_after_shutdown _ _ _ HI Hleft) as (_ & Hw0 & _). lia.
Qed.

(** Two students, one chair, run to the end: six chairs taken, seven
    wake-ups. *)
Lemma wakes_match_posts_witness :
  let s0 := initial 2 1 in
  let tr := run_to_end_trace 200 s0 in
  let s := run_to_end 200 s0 in
  (0 < 2 <= INT_MAX /\ 0 <= 1 <= INT_MAX /\ steps s0 tr s /\ finished s) /\
  count_steps wake_event s0 tr = count_steps admission s0 tr + 1 /\
  count_steps wake_event s0 tr = 7.
Proof.
  intros s0 tr s.
  assert (H1 : 0 < 2 <= INT_MAX) by (unfold INT_MAX; lia).
  assert (H2 : 0 <= 1 <= INT_MAX) by (unfold INT_MAX; lia).
  assert (H3 : steps s0 tr s) by apply run_to_end_trace_steps.
  assert (H4 : finished s).
  { split; [vm_compute; reflexivity|]. split; [vm_compute; reflexivity|].
    intros [|[|k]] pc Hk; vm_compute in Hk; [left|left|]; congruence. }
  split; [auto|].
  destruct (wakes_match_posts 2 1 tr s H1 H2 H3) as (_ & _ & Hend).
  split; [exact (Hend H4)|]. vm_compute. reflexivity.
Defined.

(** X13.  Start-up failures.  [main] starts the run exactly when the
    input is valid and both the allocations and the creation of the TA
    thread succeed.  Otherwise it returns 1, never 0, after printing exactly
    one error line behind the two prompts: with valid input, the allocation
    error when an allocation fails, whether or not the TA thread could have
    been created, and the thread error when only the creation of the TA
    thread fails. *)
Theorem startup_failures in_students in_chairs malloc_ok ta_created :
  (main_start in_students in_chairs malloc_ok ta_created
   = Started (initial in_students in_chairs) <->
   0 < in_students /\ 0 <= in_chairs /\ malloc_ok = true /\ ta_created = true) /\
  (0 < in_students -> 0 <= in_chairs -> malloc_ok = false ->
   main_start in_students in_chairs malloc_ok ta_created
   = Exit 1 [AllocError; PromptChairs; PromptStudents]) /\
  (0 < in_students -> 0 <= in_chairs -> malloc_ok = true -> ta_created = false ->
   main_start in_students in_chairs malloc_ok ta_created
   = Exit 1 [TaCreateError; PromptChairs; PromptStudents]) /\
  (forall st out,
     main_start in_students in_chairs malloc_ok ta_created = Exit st out ->
     st = 1 /\ exists err, out = [err; PromptChairs; PromptStudents]).
Proof.
  unfold main_start.
  destruct (Z.leb_spec in_students 0); destruct (Z.ltb_spec in_chairs 0);
    destruct malloc_ok, ta_created; simpl;
    (split; [split; [intros; try discriminate; repeat split; lia
                    |intros (? & ? & ? & ?); try discriminate; try lia; reflexivity]|]);
    (split; [intros; try discriminate; try lia; reflexivity|]);
    (split; [intros; try discriminate; try lia; reflexivity|]);
    intros st out Hex; try discriminate; injection Hex as <- <-; eauto.
Qed.

(** Three students and two chairs, with a failing allocation. *)
Lemma startup_failures_witness :
  (0 < 3 /\ 0 <= 2 /\ false = false) /\
  main_start 3 2 false true = Exit 1 [AllocError; PromptChairs; PromptStudents].
Proof.
  split; [repeat split; lia|].
  apply (proj1 (proj2 (startup_failures 3 2 false true))); [lia|lia|reflexivity].
Defined.
